(** * dapr-agents cookbook notebooks: a shallow embedding

    The two notebooks under verification are linear Python scripts that
    call into an agent framework and a vector store.  The embedding has
    these layers:

    - [Py]: the Python values, exceptions, f-strings and subscripting
      that the notebooks' own code uses;
    - [PyRandom] and [Tools]: the two tool functions of notebook A,
      [get_weather] and [jump], over an explicit random-generator state;
    - [Script]: a small monad of scripts that issue calls to the
      libraries, run against an arbitrary environment which answers (or
      raises on) every call and records the trace;
    - [NotebookA], [NotebookB]: the cells, transcribed statement by
      statement, with the outputs recorded in the .ipynb files;
    - [AgentModel]: a model of the part of the agent framework that
      notebook A exercises, checked against the recorded outputs;
    - [Observe]: functions that read a trace;
    - [Guards]: the shape of the runs of notebook B, complete or not;
    - [Transcripts]: the complete list of the calls of a run of each
      notebook that returns.

    The facts proved about them follow the definitions. *)

From Stdlib Require Import ZArith List String Ascii Lia Bool.
From Stdlib Require Import DecimalString DecimalPos DecimalZ.
Import ListNotations.
Local Open Scope string_scope.
Local Open Scope Z_scope.
Set Warnings "-register-all".

(* ===================================================================== *)
(** ** Python values *)
(* ===================================================================== *)

Module Py.

(** Functions defined in notebook A ([def get_weather], [def jump]). *)
Inductive FunDef := get_weather_def | jump_def.

(** The values that flow through the notebooks.  [VObj] is an opaque
    handle to an object owned by a library (an agent, a store, a tool
    wrapper ...) and answers no subscript; there are no tuples (the
    libraries answer the notebooks with lists and dicts); a float is
    kept as the text of its [repr]; [VFmt] is an f-string one of whose fields is a
    container: CPython renders such a field with [repr], which is not
    modelled, so the segments are kept in order, unrendered. *)
Inductive pyval :=
| VNone
| VBool (b : bool)
| VInt (z : Z)
| VStr (s : string)
| VFloat (repr : string)
| VList (l : list pyval)
| VDict (d : list (string * pyval))
| VFun (f : FunDef)
| VObj (handle : nat)
| VFmt (segments : list pyval).

(** The exceptions the notebooks' own statements can raise, and
    [LibError] for whatever a library raises. *)
Inductive exn :=
| IndexError
| KeyError (key : string)
| TypeError
| ValueError
| LibError (msg : string).

(** [str(n)] for an [int]: an optional minus sign and the decimal digits. *)
Definition str_int (z : Z) : string :=
  NilZero.string_of_int (Z.to_int z).

(** One segment of an f-string: literal text or a replacement field. *)
Inductive fpart :=
| Lit (s : string)
| Fld (v : pyval).

(** [format(v, '')] for the field types whose rendering is modelled. *)
Definition format_value (v : pyval) : option string :=
  match v with
  | VStr s => Some s
  | VInt z => Some (str_int z)
  | VBool true => Some "True"
  | VBool false => Some "False"
  | VNone => Some "None"
  | VFloat r => Some r
  | _ => None
  end.

Fixpoint render (ps : list fpart) : option string :=
  match ps with
  | [] => Some EmptyString
  | Lit s :: rest =>
      match render rest with
      | Some r => Some (s ++ r)
      | None => None
      end
  | Fld v :: rest =>
      match format_value v, render rest with
      | Some s, Some r => Some (s ++ r)
      | _, _ => None
      end
  end.

Definition segment (p : fpart) : pyval :=
  match p with
  | Lit s => VStr s
  | Fld v => v
  end.

(** The value of an f-string expression. *)
Definition fstring (ps : list fpart) : pyval :=
  match render ps with
  | Some s => VStr s
  | None => VFmt (map segment ps)
  end.

(** [d[k]] on a dict literal or a dict returned by a library: the first
    binding of the key. *)
Fixpoint dict_get (d : list (string * pyval)) (k : string) : option pyval :=
  match d with
  | [] => None
  | (k', v) :: rest => if String.eqb k' k then Some v else dict_get rest k
  end.

(** A [str] is kept as the bytes of its UTF-8 encoding; Python indexes
    and walks it by character.  A byte of the form 10xxxxxx continues
    the character begun before it. *)
Definition is_continuation (c : ascii) : bool :=
  match c with
  | Ascii _ _ _ _ _ _ false true => true
  | _ => false
  end.

(** The continuation bytes a string starts with, and the characters of
    what follows them. *)
Fixpoint split_characters (s : string) : string * list string :=
  match s with
  | EmptyString => (EmptyString, [])
  | String c rest =>
      let (continuation, following) := split_characters rest in
      if is_continuation c then (String c continuation, following)
      else (EmptyString, String c continuation :: following)
  end.

(** The characters of a [str], in order: each is a first byte with the
    continuation bytes after it. *)
Definition characters (s : string) : list string :=
  match split_characters s with
  | (EmptyString, following) => following
  | (stray, following) => stray :: following
  end.

(** [v[i]] with a non-negative integer literal [i]. *)
Definition subscript_int (v : pyval) (i : nat) : exn + pyval :=
  match v with
  | VList l =>
      match nth_error l i with
      | Some x => inr x
      | None => inl IndexError
      end
  | VStr s =>
      match nth_error (characters s) i with
      | Some c => inr (VStr c)
      | None => inl IndexError
      end
  | VDict _ => inl (KeyError (str_int (Z.of_nat i)))
  | _ => inl TypeError
  end.

(** [v[k]] with a string literal [k]. *)
Definition subscript_str (v : pyval) (k : string) : exn + pyval :=
  match v with
  | VDict d =>
      match dict_get d k with
      | Some x => inr x
      | None => inl (KeyError k)
      end
  | _ => inl TypeError
  end.

(** The one-character strings a loop over a [str] goes through. *)
Definition chars (s : string) : list pyval := map VStr (characters s).

(** [iter(v)]: the elements a [for] loop or [zip] walks through. *)
Definition iterate (v : pyval) : exn + list pyval :=
  match v with
  | VList l => inr l
  | VDict d => inr (map (fun kv => VStr (fst kv)) d)
  | VStr s => inr (chars s)
  | _ => inl TypeError
  end.

End Py.
Import Py.

(* ===================================================================== *)
(** ** The [random] module *)
(* ===================================================================== *)

Module PyRandom.

(** The generator state: a source of raw draws and a cursor into it. *)
Record rng := mk_rng { entropy : nat -> N; cursor : nat }.

(** Computations that use the generator and may raise. *)
Definition Rand (A : Type) : Type := rng -> (exn + A) * rng.

Definition ret {A} (a : A) : Rand A := fun g => (inr a, g).

Definition bind {A B} (m : Rand A) (k : A -> Rand B) : Rand B :=
  fun g =>
    match m g with
    | (inl e, g') => (inl e, g')
    | (inr a, g') => k a g'
    end.

(** [random.randint(a, b)]: an integer N with a <= N <= b, both ends
    included; [ValueError] on an empty range.  The draw is
    [a + randbelow (b - a + 1)]. *)
Definition randint (a b : Z) : Rand Z :=
  fun g =>
    if b <? a then (inl ValueError, g)
    else (inr (a + Z.of_N (entropy g (cursor g)) mod (b - a + 1)),
          mk_rng (entropy g) (S (cursor g))).

End PyRandom.

(* ===================================================================== *)
(** ** The tool functions of notebook A (cell 3) *)
(* ===================================================================== *)

Module Tools.
Import PyRandom.

(** def get_weather(location: str) -> str:
        import random
        temperature = random.randint(60, 80)
        return f"{location}: {temperature}F."  *)
Definition get_weather (location : string) : Rand pyval :=
  bind (randint 60 80) (fun temperature =>
  ret (fstring [Fld (VStr location); Lit ": "; Fld (VInt temperature); Lit "F."])).

(** def jump(distance: str) -> str:
        return f"I jumped the following distance {distance}"  *)
Definition jump (distance : string) : pyval :=
  fstring [Lit "I jumped the following distance "; Fld (VStr distance)].

(** The body behind each function name. *)
Definition body (f : FunDef) (arg : string) : Rand pyval :=
  match f with
  | get_weather_def => get_weather arg
  | jump_def => ret (jump arg)
  end.

(** The draw a generator is about to give. *)
Definition next_draw (g : rng) : Z := Z.of_N (entropy g (cursor g)).

(** A generator whose draws are all [n]. *)
Definition const_rng (n : N) : rng := mk_rng (fun _ => n) 0.

(** A generator whose k-th draw is [k]. *)
Definition counting_rng : rng := mk_rng N.of_nat 0.

(** A generator whose first draws are the given ones. *)
Definition rng_of (draws : list N) : rng := mk_rng (fun k => nth k draws 0%N) 0.

(** Calling one tool function on each argument in turn, on one
    generator. *)
Fixpoint call_each (f : FunDef) (arguments : list string) (g : rng) : list (exn + pyval) :=
  match arguments with
  | [] => []
  | a :: rest => fst (body f a g) :: call_each f rest (snd (body f a g))
  end.

End Tools.

(* ===================================================================== *)
(** ** Scripts: programs that call into libraries *)
(* ===================================================================== *)

Module Script.

(** The library entry points the two notebooks use. *)
Inductive Callee :=
(* both notebooks *)
| import_module            (* import m / from m import x *)
| load_dotenv              (* dotenv.load_dotenv() *)
(* notebook A *)
| logging_basicConfig      (* logging.basicConfig(level=...) *)
| pydantic_Field           (* Field(description=...) *)
| BaseModel_subclass       (* class X(BaseModel): ... *)
| tool                     (* tool(args_model=...) *)
| apply_decorator          (* @decorator applied to the def below it *)
| ReActAgent               (* ReActAgent(name=..., role=..., tools=...) *)
| agent_prompt_template    (* AIAgent.prompt_template *)
| agent_tools              (* AIAgent.tools *)
| tool_name                (* <tool>.name *)
| agent_run                (* AIAgent.run(prompt) *)
| agent_chat_history       (* AIAgent.chat_history *)
(* notebook B *)
| shell                    (* !command *)
| SentenceTransformerEmbedder
| ChromaVectorStore
| Document
| store_add_documents
| store_count
| store_get
| store_update
| store_delete
| store_search_similar
| store_query_with_filters
| store_client             (* store.client *)
| client_list_collections  (* store.client.list_collections() *)
| store_reset
| print.

Definition Callee_eqb (a b : Callee) : bool :=
  match a, b with
  | import_module, import_module | load_dotenv, load_dotenv
  | logging_basicConfig, logging_basicConfig | pydantic_Field, pydantic_Field
  | BaseModel_subclass, BaseModel_subclass | tool, tool
  | apply_decorator, apply_decorator | ReActAgent, ReActAgent
  | agent_prompt_template, agent_prompt_template | agent_tools, agent_tools
  | tool_name, tool_name | agent_run, agent_run
  | agent_chat_history, agent_chat_history | shell, shell
  | SentenceTransformerEmbedder, SentenceTransformerEmbedder
  | ChromaVectorStore, ChromaVectorStore | Document, Document
  | store_add_documents, store_add_documents | store_count, store_count
  | store_get, store_get | store_update, store_update
  | store_delete, store_delete | store_search_similar, store_search_similar
  | store_query_with_filters, store_query_with_filters
  | store_client, store_client
  | client_list_collections, client_list_collections
  | store_reset, store_reset | print, print => true
  | _, _ => false
  end.

(** An actual argument: positional, or keyword [name=value].  A method
    call passes its receiver as the first positional argument. *)
Inductive arg :=
| Pos (v : pyval)
| Kw (name : string) (v : pyval).

Record Call := mk_call { callee : Callee; args : list arg }.

(** A script: return a value, raise, call a library and continue with
    its answer, or run a body under [try: ... except: ...]. *)
Inductive Prog :=
| Ret (v : pyval)
| Raise (e : exn)
| Do (c : Call) (k : pyval -> Prog)
| Try (body : Prog) (handler : exn -> Prog) (k : pyval -> Prog).

Fixpoint bind (p : Prog) (f : pyval -> Prog) : Prog :=
  match p with
  | Ret v => f v
  | Raise e => Raise e
  | Do c k => Do c (fun v => bind (k v) f)
  | Try b h k => Try b h (fun v => bind (k v) f)
  end.

Declare Scope script_scope.
Delimit Scope script_scope with script.
Notation "x <- p ;; q" := (bind p (fun x => q))
  (at level 61, p at next level, right associativity) : script_scope.
Notation "p ;; q" := (bind p (fun _ => q))
  (at level 61, right associativity) : script_scope.
Local Open Scope script_scope.

(** A library call as a statement or expression. *)
Definition call (f : Callee) (a : list arg) : Prog := Do (mk_call f a) Ret.

(** A local operation of the interpreter that may raise. *)
Definition eval (r : exn + pyval) : Prog :=
  match r with
  | inl e => Raise e
  | inr v => Ret v
  end.

(** The body of [for x in l: body]. *)
Fixpoint for_each (l : list pyval) (body : pyval -> Prog) : Prog :=
  match l with
  | [] => Ret VNone
  | x :: rest => body x ;; for_each rest body
  end.

(** [for x in v: body] *)
Definition for_in (v : pyval) (body : pyval -> Prog) : Prog :=
  match iterate v with
  | inl e => Raise e
  | inr l => for_each l body
  end.

Fixpoint for_pairs (l : list (pyval * pyval)) (body : pyval -> pyval -> Prog) : Prog :=
  match l with
  | [] => Ret VNone
  | (x, y) :: rest => body x y ;; for_pairs rest body
  end.

(** [for x, y in zip(a, b): body] *)
Definition for_zip (a b : pyval) (body : pyval -> pyval -> Prog) : Prog :=
  match iterate a with
  | inl e => Raise e
  | inr la =>
      match iterate b with
      | inl e => Raise e
      | inr lb => for_pairs (combine la lb) body
      end
  end.

(** Scripts with no [try] statement anywhere. *)
Inductive try_free : Prog -> Prop :=
| tf_ret v : try_free (Ret v)
| tf_raise e : try_free (Raise e)
| tf_do c k : (forall v, try_free (k v)) -> try_free (Do c k).

Inductive Outcome :=
| Returned (v : pyval)
| Uncaught (e : exn).

Section Exec.

(** The environment: the state of everything outside the script, and
    how it answers a call. *)
Variable W : Type.
Variable env : Call -> W -> (exn + pyval) * W.

(** One completed call: what was called, the answer, the state after. *)
Record Event := mk_event
  { ev_call : Call; ev_result : exn + pyval; ev_world : W }.

Record Run := mk_run
  { outcome : Outcome; final : W; trace : list Event }.

Definition after (t : list Event) (r : Run) : Run :=
  mk_run (outcome r) (final r) (t ++ trace r).

Fixpoint exec (p : Prog) (w : W) : Run :=
  match p with
  | Ret v => mk_run (Returned v) w []
  | Raise e => mk_run (Uncaught e) w []
  | Do c k =>
      match env c w with
      | (inl e, w') => mk_run (Uncaught e) w' [mk_event c (inl e) w']
      | (inr v, w') => after [mk_event c (inr v) w'] (exec (k v) w')
      end
  | Try b h k =>
      let r := exec b w in
      match outcome r with
      | Returned v => after (trace r) (exec (k v) (final r))
      | Uncaught e =>
          let r' := exec (h e) (final r) in
          match outcome r' with
          | Returned v => after (trace r ++ trace r') (exec (k v) (final r'))
          | Uncaught e' => mk_run (Uncaught e') (final r') (trace r ++ trace r')
          end
      end
  end.

Definition raised (ev : Event) : bool :=
  match ev_result ev with
  | inl _ => true
  | inr _ => false
  end.

Definition calls (t : list Event) : list Call := map ev_call t.
Definition callees (t : list Event) : list Callee := map (fun ev => callee (ev_call ev)) t.

End Exec.

Arguments mk_event {W}.
Arguments ev_call {W}.
Arguments ev_result {W}.
Arguments ev_world {W}.
Arguments mk_run {W}.
Arguments outcome {W}.
Arguments final {W}.
Arguments trace {W}.
Arguments after {W}.
Arguments exec {W}.
Arguments raised {W}.
Arguments calls {W}.
Arguments callees {W}.

(** An environment that replays a list of answers, one per call. *)
Definition scripted (c : Call) (w : list (exn + pyval)) : (exn + pyval) * list (exn + pyval) :=
  match w with
  | [] => (inr VNone, [])
  | a :: rest => (a, rest)
  end.

End Script.

Import Script.
Local Open Scope script_scope.

(* ===================================================================== *)
(** ** Notebook A: the tool-calling weather agent *)
(* ===================================================================== *)

Module NotebookA.

Definition nl : string := String (ascii_of_nat 10) EmptyString.

(** [logging.INFO] *)
Definition logging_INFO : pyval := VInt 20.

(** In [1]:
      from dotenv import load_dotenv
      load_dotenv()  *)
Definition cell1 : Prog :=
  call import_module [Pos (VStr "dotenv")] ;;
  call load_dotenv [].

(** In [2]:
      import logging
      logging.basicConfig(level=logging.INFO)  *)
Definition cell2 : Prog :=
  call import_module [Pos (VStr "logging")] ;;
  call logging_basicConfig [Kw "level" logging_INFO].

(** In [3]: the two schemas, the two decorated functions, and
      tools = [get_weather,jump]
    The cell's result here is [tools], the name later cells read. *)
Definition cell3 : Prog :=
  call import_module [Pos (VStr "dapr_agents")] ;;
  call import_module [Pos (VStr "pydantic")] ;;
  location <- call pydantic_Field [Kw "description" (VStr "location to get weather for")] ;;
  GetWeatherSchema <- call BaseModel_subclass [Pos (VStr "GetWeatherSchema"); Kw "location" location] ;;
  decorator <- call tool [Kw "args_model" GetWeatherSchema] ;;
  get_weather <- call apply_decorator [Pos decorator; Pos (VFun get_weather_def)] ;;
  distance <- call pydantic_Field [Kw "description" (VStr "Distance for agent to jump")] ;;
  JumpSchema <- call BaseModel_subclass [Pos (VStr "JumpSchema"); Kw "distance" distance] ;;
  decorator <- call tool [Kw "args_model" JumpSchema] ;;
  jump <- call apply_decorator [Pos decorator; Pos (VFun jump_def)] ;;
  Ret (VList [get_weather; jump]).

(** In [4]:
      from dapr_agents import ReActAgent
      AIAgent = ReActAgent(name="Rob", role= "Weather Assistant", tools=tools)  *)
Definition cell4 (tools : pyval) : Prog :=
  call import_module [Pos (VStr "dapr_agents")] ;;
  call ReActAgent [Kw "name" (VStr "Rob"); Kw "role" (VStr "Weather Assistant"); Kw "tools" tools].

(** In [5]:  AIAgent.prompt_template *)
Definition cell5 (AIAgent : pyval) : Prog :=
  call agent_prompt_template [Pos AIAgent].

(** In [6]:  AIAgent.tools[0].name *)
Definition cell6 (AIAgent : pyval) : Prog :=
  ts <- call agent_tools [Pos AIAgent] ;;
  t <- eval (subscript_int ts 0) ;;
  call tool_name [Pos t].

Definition prompt1 : string := "Hi my name is Roberto".
Definition prompt2 : string := "What is the weather in Virgina, New York and Washington DC?".
Definition prompt3 : string := "What places did you already help me with the weather?".

(** In [7]:  AIAgent.run("Hi my name is Roberto") *)
Definition cell7 (AIAgent : pyval) : Prog :=
  call agent_run [Pos AIAgent; Pos (VStr prompt1)].

(** In [8]:  AIAgent.chat_history *)
Definition cell8 (AIAgent : pyval) : Prog :=
  call agent_chat_history [Pos AIAgent].

(** In [9]:  AIAgent.run("What is the weather in Virgina, New York and Washington DC?") *)
Definition cell9 (AIAgent : pyval) : Prog :=
  call agent_run [Pos AIAgent; Pos (VStr prompt2)].

(** In [10]:  AIAgent.run("What places did you already help me with the weather?") *)
Definition cell10 (AIAgent : pyval) : Prog :=
  call agent_run [Pos AIAgent; Pos (VStr prompt3)].

(** In [11]:  AIAgent.chat_history *)
Definition cell11 (AIAgent : pyval) : Prog :=
  call agent_chat_history [Pos AIAgent].

(** The cells in the order of the file; a cell that raises stops the
    run, as the kernel does under Run All. *)
Definition notebook : Prog :=
  cell1 ;;
  cell2 ;;
  tools <- cell3 ;;
  AIAgent <- cell4 tools ;;
  cell5 AIAgent ;;
  cell6 AIAgent ;;
  cell7 AIAgent ;;
  cell8 AIAgent ;;
  cell9 AIAgent ;;
  cell10 AIAgent ;;
  cell11 AIAgent.

(** The calls of cells 7 to 11 on a given agent object. *)
Definition run_call (AIAgent : pyval) (prompt : string) : Call :=
  mk_call agent_run [Pos AIAgent; Pos (VStr prompt)].
Definition history_call (AIAgent : pyval) : Call :=
  mk_call agent_chat_history [Pos AIAgent].

(** The library entry points in the order the cells reach them. *)
Definition callee_sequence : list Callee :=
  [import_module; load_dotenv;
   import_module; logging_basicConfig;
   import_module; import_module;
   pydantic_Field; BaseModel_subclass; tool; apply_decorator;
   pydantic_Field; BaseModel_subclass; tool; apply_decorator;
   import_module; ReActAgent;
   agent_prompt_template;
   agent_tools; tool_name;
   agent_run;
   agent_chat_history;
   agent_run;
   agent_run;
   agent_chat_history].

(** *** The outputs recorded in the file *)

Definition Out1 : pyval := VBool true.
Definition Out6 : pyval := VStr "GetWeather".

Definition answer1 : string :=
  "Hello Roberto! How can I assist you today with the weather?".
Definition answer2 : string :=
  "The current weather is as follows:" ++ nl ++
  "- Virginia: 74°F" ++ nl ++
  "- New York: 65°F" ++ nl ++
  "- Washington, D.C.: 66°F".
Definition answer3 : string :=
  "I helped you with the weather for Virginia, New York, and Washington, D.C.".

Definition Out7 : pyval := VStr answer1.
Definition Out9 : pyval := VStr answer2.
Definition Out10 : pyval := VStr answer3.

(** A chat message as the history shows it. *)
Definition user_message (content : string) : pyval :=
  VDict [("role", VStr "user"); ("content", VStr content)].
Definition assistant_message (content : string) : pyval :=
  VDict [("content", VStr content); ("role", VStr "assistant")].

Definition Out8 : pyval :=
  VList [user_message "Hi my name is Roberto";
         assistant_message "Hello Roberto! How can I assist you today with the weather?"].

Definition Out11 : pyval :=
  VList [user_message "Hi my name is Roberto";
         assistant_message "Hello Roberto! How can I assist you today with the weather?";
         user_message "What is the weather in Virgina, New York and Washington DC?";
         assistant_message answer2;
         user_message "What places did you already help me with the weather?";
         assistant_message "I helped you with the weather for Virginia, New York, and Washington, D.C."].

(** The logger lines of cell 4 that come from the tool executor. *)
Definition log4 : list string :=
  ["Tool registered: GetWeather";
   "Tool registered: Jump";
   "Tool Executor initialized with 2 registered tools."].

(** The observations logged during the second run (cell 9), with the
    location each tool call was given. *)
Definition observations9 : list (string * string) :=
  [("Virginia", "Virginia: 74F.");
   ("New York", "New York: 65F.");
   ("Washington DC", "Washington DC: 66F.")].

(** The four calls one tool declaration of cell 3 makes (the field, the
    schema class, the decorator, its application), with their answers. *)
Definition declaration (class_name field_name description : string) (f : FunDef)
    (field schema decorator tool_object : pyval) : list (Call * (exn + pyval)) :=
  [(mk_call pydantic_Field [Kw "description" (VStr description)], inr field);
   (mk_call BaseModel_subclass [Pos (VStr class_name); Kw field_name field], inr schema);
   (mk_call tool [Kw "args_model" schema], inr decorator);
   (mk_call apply_decorator [Pos decorator; Pos (VFun f)], inr tool_object)].

(** The constructor call of cell 4 on a given [tools] list. *)
Definition constructor_call (tools : pyval) : Call :=
  mk_call ReActAgent
    [Kw "name" (VStr "Rob"); Kw "role" (VStr "Weather Assistant"); Kw "tools" tools].

(** A session in which the agent reports an empty list of tools. *)
Definition no_tools_session : list (exn + pyval) :=
  repeat (inr (VObj 0)) 17 ++ [inr (VList [])].

End NotebookA.

(* ===================================================================== *)
(** ** A model of the agent framework *)
(* ===================================================================== *)

Module AgentModel.

(** Modelled from the spec: the agent framework that notebook A calls
    (the [tool] decorator, the [ReActAgent] constructor, [run] and
    [chat_history]) is not part of the sources.  The spec names it as
    a tool-calling agent whose [run] is invoked three times with the
    chat history inspected in between; the state below is the least
    that the outputs recorded in the notebook show of it: the tool
    objects, the tools the agent registered, the executor's log lines,
    the chat history, and the final answers the language model is
    going to give. *)
Record World := mk_world
  { fresh : nat;
    tool_objects : list (nat * FunDef);
    registered : list nat;
    log : list string;
    chat_history : list pyval;
    llm : list string }.

Definition init (answers : list string) : World :=
  mk_world 1 [] [] [] [] answers.

(** The name a decorated function is registered under, as logged in
    cell 4. *)
Definition tool_display_name (f : FunDef) : string :=
  match f with
  | get_weather_def => "GetWeather"
  | jump_def => "Jump"
  end.

Fixpoint find_tool (objs : list (nat * FunDef)) (h : nat) : option FunDef :=
  match objs with
  | [] => None
  | (h', f) :: rest => if Nat.eqb h' h then Some f else find_tool rest h
  end.

(** The tool objects among the values of a [tools=] list. *)
Fixpoint tool_handles (objs : list (nat * FunDef)) (ts : list pyval) : list (nat * FunDef) :=
  match ts with
  | [] => []
  | VObj h :: rest =>
      match find_tool objs h with
      | Some f => (h, f) :: tool_handles objs rest
      | None => tool_handles objs rest
      end
  | _ :: rest => tool_handles objs rest
  end.

(** Whether a name occurs among the names of the tools. *)
Fixpoint has_name (name : string) (ts : list (nat * FunDef)) : bool :=
  match ts with
  | [] => false
  | t :: rest => String.eqb (tool_display_name (snd t)) name || has_name name rest
  end.

(** Whether two of the tools have one name. *)
Fixpoint duplicate_names (ts : list (nat * FunDef)) : bool :=
  match ts with
  | [] => false
  | t :: rest => has_name (tool_display_name (snd t)) rest || duplicate_names rest
  end.

(** The entry a [run] records for the user: none for an empty prompt. *)
Definition user_entry (prompt : string) : list pyval :=
  match prompt with
  | EmptyString => []
  | _ => [NotebookA.user_message prompt]
  end.

Definition executor_log (ts : list (nat * FunDef)) : list string :=
  map (fun t => "Tool registered: " ++ tool_display_name (snd t)) ts ++
  ["Tool Executor initialized with " ++ str_int (Z.of_nat (List.length ts)) ++ " registered tools."].

Definition new_object (w : World) : (exn + pyval) * World :=
  (inr (VObj (fresh w)),
   mk_world (S (fresh w)) (tool_objects w) (registered w) (log w) (chat_history w) (llm w)).

(** Modelled from the spec: how the framework answers each call of
    notebook A.  The constructor registers the tools of its list and
    refuses two tools of one name.  A [run] records the user's prompt,
    if it is not empty; when the language model answers it then records
    the assistant's final answer and returns it, and when the language
    model has no answer it raises, the prompt staying recorded. *)
Definition env (c : Call) (w : World) : (exn + pyval) * World :=
  match callee c, args c with
  | import_module, _ => (inr VNone, w)
  | load_dotenv, _ => (inr (VBool true), w)
  | logging_basicConfig, _ => (inr VNone, w)
  | pydantic_Field, _ => new_object w
  | BaseModel_subclass, _ => new_object w
  | tool, _ => new_object w
  | apply_decorator, [Pos _; Pos (VFun f)] =>
      (inr (VObj (fresh w)),
       mk_world (S (fresh w)) (tool_objects w ++ [(fresh w, f)]) (registered w)
                (log w) (chat_history w) (llm w))
  | ReActAgent, [Kw _ _; Kw _ _; Kw _ (VList ts)] =>
      let found := tool_handles (tool_objects w) ts in
      if duplicate_names found then (inl (LibError "tool already registered"), w)
      else
        (inr (VObj (fresh w)),
         mk_world (S (fresh w)) (tool_objects w) (map fst found)
                  (log w ++ executor_log found) [] (llm w))
  | agent_prompt_template, _ => new_object w
  | agent_tools, _ => (inr (VList (map VObj (registered w))), w)
  | tool_name, [Pos (VObj h)] =>
      match find_tool (tool_objects w) h with
      | Some f => (inr (VStr (tool_display_name f)), w)
      | None => (inl (LibError "not a tool"), w)
      end
  | agent_run, [Pos _; Pos (VStr prompt)] =>
      match llm w with
      | [] =>
          (inl (LibError "no completion"),
           mk_world (fresh w) (tool_objects w) (registered w) (log w)
                    (chat_history w ++ user_entry prompt) [])
      | answer :: rest =>
          (inr (VStr answer),
           mk_world (fresh w) (tool_objects w) (registered w) (log w)
                    (chat_history w ++ user_entry prompt ++
                       [NotebookA.assistant_message answer])
                    rest)
      end
  | agent_chat_history, _ => (inr (VList (chat_history w)), w)
  | _, _ => (inl (LibError "not modelled"), w)
  end.

(** The answers the language model gave in the recorded session. *)
Definition recorded : World :=
  init [NotebookA.answer1; NotebookA.answer2; NotebookA.answer3].

(** A session in which the language model answers once only. *)
Definition one_answer : World := init [NotebookA.answer1].

(** The names of the tools the agent registered. *)
Definition registered_names (w : World) : list string :=
  flat_map (fun h => match find_tool (tool_objects w) h with
                     | Some f => [tool_display_name f]
                     | None => []
                     end) (registered w).

(** The chat history right after each [run] of a trace. *)
Definition histories_after_runs (t : list (Event World)) : list (list pyval) :=
  map (fun ev => chat_history (ev_world ev))
      (filter (fun ev => Callee_eqb (callee (ev_call ev)) agent_run) t).

End AgentModel.

(* ===================================================================== *)
(** ** Notebook B: the Chroma vector store *)
(* ===================================================================== *)

Module NotebookB.

(** First code cell (never executed in the recorded session):
      !pip install dapr-agents python-dotenv chromadb sentence-transformers  *)
Definition cell0 : Prog :=
  call shell [Pos (VStr "pip install dapr-agents python-dotenv chromadb sentence-transformers")].

(** The call that cell makes. *)
Definition pip_install : Call :=
  mk_call shell [Pos (VStr "pip install dapr-agents python-dotenv chromadb sentence-transformers")].

(** In [1]:
      from dotenv import load_dotenv
      load_dotenv()  *)
Definition cell1 : Prog :=
  call import_module [Pos (VStr "dotenv")] ;;
  call load_dotenv [].

(** In [2]:
      from dapr_agents.document.embedder import SentenceTransformerEmbedder
      embedding_function = SentenceTransformerEmbedder(model="all-MiniLM-L6-v2")  *)
Definition cell2 : Prog :=
  call import_module [Pos (VStr "dapr_agents.document.embedder")] ;;
  call SentenceTransformerEmbedder [Kw "model" (VStr "all-MiniLM-L6-v2")].

(** In [3]:
      from dapr_agents.storage import ChromaVectorStore
      store = ChromaVectorStore(name="example_collection",
                                embedding_function=embedding_function,
                                persistent=False, host="localhost", port=8000)  *)
Definition cell3 (embedding_function : pyval) : Prog :=
  call import_module [Pos (VStr "dapr_agents.storage")] ;;
  call ChromaVectorStore
    [Kw "name" (VStr "example_collection");
     Kw "embedding_function" embedding_function;
     Kw "persistent" (VBool false);
     Kw "host" (VStr "localhost");
     Kw "port" (VInt 8000)].

(** The ten [Document(text=..., metadata={"topic": ..., "location": ...})]
    literals of cell 4: text, topic, location. *)
Definition document_literals : list (string * (string * string)) :=
  [("Gandalf: A wizard is never late, Frodo Baggins. Nor is he early; he arrives precisely when he means to.",
    ("wisdom", "The Shire"));
   ("Frodo: I wish the Ring had never come to me. I wish none of this had happened.",
    ("destiny", "Moria"));
   ("Aragorn: You cannot wield it! None of us can. The One Ring answers to Sauron alone. It has no other master.",
    ("power", "Rivendell"));
   ("Sam: I can't carry it for you, but I can carry you!",
    ("friendship", "Mount Doom"));
   ("Legolas: A red sun rises. Blood has been spilled this night.",
    ("war", "Rohan"));
   ("Gimli: Certainty of death. Small chance of success. What are we waiting for?",
    ("bravery", "Helm's Deep"));
   ("Boromir: One does not simply walk into Mordor.",
    ("impossible tasks", "Rivendell"));
   ("Galadriel: Even the smallest person can change the course of the future.",
    ("hope", "Lothlórien"));
   ("Théoden: So it begins.",
    ("battle", "Helm's Deep"));
   ("Elrond: The strength of the Ring-bearer is failing. In his heart, Frodo begins to understand. The quest will claim his life.",
    ("sacrifice", "Rivendell"))].

(** The elements of the list literal, evaluated left to right. *)
Fixpoint build_documents (lits : list (string * (string * string))) (built : list pyval) : Prog :=
  match lits with
  | [] => Ret (VList built)
  | (text, (topic, location)) :: rest =>
      d <- call Document
             [Kw "text" (VStr text);
              Kw "metadata" (VDict [("topic", VStr topic); ("location", VStr location)])] ;;
      build_documents rest (built ++ [d])
  end.

(** In [4]:
      from dapr_agents.types.document import Document
      documents = [Document(...), ...]  *)
Definition cell4 : Prog :=
  call import_module [Pos (VStr "dapr_agents.types.document")] ;;
  build_documents document_literals [].

(** In [5]:
      store.add_documents(documents=documents)
      print(f"Number of documents in the collection: {store.count()}")  *)
Definition cell5 (store documents : pyval) : Prog :=
  call store_add_documents [Pos store; Kw "documents" documents] ;;
  n <- call store_count [Pos store] ;;
  call print [Pos (fstring [Lit "Number of documents in the collection: "; Fld n])].

(** The loop body of cell 6:
      print(f"ID: {doc['id']}, Text: {doc['document']}, Metadata: {doc['metadata']}")  *)
Definition print_doc (doc : pyval) : Prog :=
  id <- eval (subscript_str doc "id") ;;
  text <- eval (subscript_str doc "document") ;;
  metadata <- eval (subscript_str doc "metadata") ;;
  call print [Pos (fstring [Lit "ID: "; Fld id; Lit ", Text: "; Fld text;
                            Lit ", Metadata: "; Fld metadata])].

(** In [6]:
      retrieved_docs = store.get()
      print("Retrieved documents:")
      for doc in retrieved_docs:
          print(...)  *)
Definition cell6 (store : pyval) : Prog :=
  retrieved_docs <- call store_get [Pos store] ;;
  call print [Pos (VStr "Retrieved documents:")] ;;
  for_in retrieved_docs print_doc.

Definition updated_text : string :=
  "Gandalf: Even the wisest cannot foresee all ends, but hope remains while the Company is true.".

Definition updated_metadata : pyval :=
  VDict [("topic", VStr "hope and wisdom"); ("location", VStr "Fangorn Forest")].

(** In [7]:
      retrieved_docs = store.get()
      doc_id = retrieved_docs[0]['id']
      updated_text = ...
      updated_metadata = ...
      store.update(ids=[doc_id], documents=[updated_text], metadatas=[updated_metadata])
      updated_doc = store.get(ids=[doc_id])
      print(f"Updated document: {updated_doc}")
    The cell's result here is [retrieved_docs], which cell 8 reads. *)
Definition cell7 (store : pyval) : Prog :=
  retrieved_docs <- call store_get [Pos store] ;;
  first <- eval (subscript_int retrieved_docs 0) ;;
  doc_id <- eval (subscript_str first "id") ;;
  call store_update [Pos store;
                     Kw "ids" (VList [doc_id]);
                     Kw "documents" (VList [VStr updated_text]);
                     Kw "metadatas" (VList [updated_metadata])] ;;
  updated_doc <- call store_get [Pos store; Kw "ids" (VList [doc_id])] ;;
  call print [Pos (fstring [Lit "Updated document: "; Fld updated_doc])] ;;
  Ret retrieved_docs.

(** In [8]:
      doc_id_to_delete = retrieved_docs[2]['id']
      store.delete(ids=[doc_id_to_delete])
      print(f"Number of documents after deletion: {store.count()}")  *)
Definition cell8 (store retrieved_docs : pyval) : Prog :=
  third <- eval (subscript_int retrieved_docs 2) ;;
  doc_id_to_delete <- eval (subscript_str third "id") ;;
  call store_delete [Pos store; Kw "ids" (VList [doc_id_to_delete])] ;;
  n <- call store_count [Pos store] ;;
  call print [Pos (fstring [Lit "Number of documents after deletion: "; Fld n])].

(** The loop body of cell 9:
      print(f"Text: {doc}")
      print(f"Metadata: {metadata}")  *)
Definition print_result (doc metadata : pyval) : Prog :=
  call print [Pos (fstring [Lit "Text: "; Fld doc])] ;;
  call print [Pos (fstring [Lit "Metadata: "; Fld metadata])].

(** In [9]:
      query = "wise advice"
      results = store.search_similar(query_texts=query, k=2)
      print("Similarity search results:")
      for doc, metadata in zip(results["documents"], results["metadatas"]):
          ...  *)
Definition cell9 (store : pyval) : Prog :=
  results <- call store_search_similar
               [Pos store; Kw "query_texts" (VStr "wise advice"); Kw "k" (VInt 2)] ;;
  call print [Pos (VStr "Similarity search results:")] ;;
  docs <- eval (subscript_str results "documents") ;;
  metadatas <- eval (subscript_str results "metadatas") ;;
  for_zip docs metadatas print_result.

Definition filter_conditions : pyval :=
  VDict [("$and",
          VList [VDict [("location", VDict [("$eq", VStr "Fangorn Forest")])];
                 VDict [("topic", VDict [("$eq", VStr "hope and wisdom")])]])].

(** In [10]:
      filter_conditions = {...}
      filtered_results = store.query_with_filters(query_texts=["journey"],
                                                  where=filter_conditions, k=3)  *)
Definition cell10 (store : pyval) : Prog :=
  call store_query_with_filters
    [Pos store; Kw "query_texts" (VList [VStr "journey"]);
     Kw "where" filter_conditions; Kw "k" (VInt 3)].

(** In [11]:  filtered_results *)
Definition cell11 (filtered_results : pyval) : Prog :=
  Ret filtered_results.

(** In [12] and In [14]:  store.client.list_collections() *)
Definition cell12 (store : pyval) : Prog :=
  client <- call store_client [Pos store] ;;
  call client_list_collections [Pos client].

(** In [13]:  store.reset() *)
Definition cell13 (store : pyval) : Prog :=
  call store_reset [Pos store].

Definition cell14 (store : pyval) : Prog := cell12 store.

Definition notebook : Prog :=
  cell0 ;;
  cell1 ;;
  embedding_function <- cell2 ;;
  store <- cell3 embedding_function ;;
  documents <- cell4 ;;
  cell5 store documents ;;
  cell6 store ;;
  retrieved_docs <- cell7 store ;;
  cell8 store retrieved_docs ;;
  cell9 store ;;
  filtered_results <- cell10 store ;;
  cell11 filtered_results ;;
  cell12 store ;;
  cell13 store ;;
  cell14 store.

(** The calls on the store and its client that a completed run makes,
    in order, each with its answer. *)
Section StoreSession.
Variables embedding_function store documents : pyval.
Variables added count1 shown retrieved_docs doc_id updated updated_doc : pyval.
Variables doc_id_to_delete deleted count2 results filtered_results : pyval.
Variables client collections was_reset client' collections' : pyval.

Definition store_session : list (Call * (exn + pyval)) :=
  [(mk_call ChromaVectorStore
      [Kw "name" (VStr "example_collection");
       Kw "embedding_function" embedding_function;
       Kw "persistent" (VBool false);
       Kw "host" (VStr "localhost");
       Kw "port" (VInt 8000)], inr store);
   (mk_call store_add_documents [Pos store; Kw "documents" documents], inr added);
   (mk_call store_count [Pos store], inr count1);
   (mk_call store_get [Pos store], inr shown);
   (mk_call store_get [Pos store], inr retrieved_docs);
   (mk_call store_update
      [Pos store; Kw "ids" (VList [doc_id]);
       Kw "documents" (VList [VStr updated_text]);
       Kw "metadatas" (VList [updated_metadata])], inr updated);
   (mk_call store_get [Pos store; Kw "ids" (VList [doc_id])], inr updated_doc);
   (mk_call store_delete [Pos store; Kw "ids" (VList [doc_id_to_delete])], inr deleted);
   (mk_call store_count [Pos store], inr count2);
   (mk_call store_search_similar
      [Pos store; Kw "query_texts" (VStr "wise advice"); Kw "k" (VInt 2)], inr results);
   (mk_call store_query_with_filters
      [Pos store; Kw "query_texts" (VList [VStr "journey"]);
       Kw "where" filter_conditions; Kw "k" (VInt 3)], inr filtered_results);
   (mk_call store_client [Pos store], inr client);
   (mk_call client_list_collections [Pos client], inr collections);
   (mk_call store_reset [Pos store], inr was_reset);
   (mk_call store_client [Pos store], inr client');
   (mk_call client_list_collections [Pos client'], inr collections')].

End StoreSession.

(** The order of the calls on the store and its client. *)
Definition store_callee_sequence : list Callee :=
  [ChromaVectorStore;
   store_add_documents; store_count;
   store_get;
   store_get; store_update; store_get;
   store_delete; store_count;
   store_search_similar;
   store_query_with_filters;
   store_client; client_list_collections;
   store_reset;
   store_client; client_list_collections].

(** The seven operations in the order the notebook's sections present
    them. *)
Definition demonstrated_order : list Callee :=
  [store_add_documents; store_get; store_update; store_delete;
   store_search_similar; store_query_with_filters; store_reset].

(** *** The recorded session *)

(** The ids the store gave the ten documents (output of cell 6). *)
Definition recorded_ids : list string :=
  ["483fc189-df92-4815-987e-b732391e356a";
   "fcbcbf50-7b0c-458a-a232-abbc1b77518b";
   "d4fbda4e-f933-4d1c-8d63-ee4d9f0d0af7";
   "98d218e5-4274-4d93-ac9a-3fbbeb3c0a19";
   "df9d0abe-0b47-4079-9697-b66f47656e64";
   "309e0971-6826-4bac-81a8-3acfc3a28fa9";
   "a0a312be-bebd-405b-b993-4e37ed7fd569";
   "0c09f89c-cf60-4428-beee-294b31dfd6a9";
   "d4778b45-f9fa-438c-b9e9-7466c872b4cc";
   "7a44e69f-e0c9-41c0-9cdf-a8f34ddf45f5"].

(** A document as [store.get()] returns it. *)
Definition stored (id text topic location : string) : pyval :=
  VDict [("id", VStr id);
         ("metadata", VDict [("location", VStr location); ("topic", VStr topic)]);
         ("document", VStr text)].

Definition stored_documents (ids : list string) : pyval :=
  VList (map (fun il => stored (fst il) (fst (snd il)) (fst (snd (snd il))) (snd (snd (snd il))))
             (combine ids document_literals)).

Definition updated_stored (id : string) : pyval :=
  stored id updated_text "hope and wisdom" "Fangorn Forest".

Definition search_results : pyval :=
  VDict [("documents",
          VList [VList [VStr updated_text;
                        VStr "Gimli: Certainty of death. Small chance of success. What are we waiting for?"]]);
         ("metadatas",
          VList [VList [VDict [("location", VStr "Fangorn Forest"); ("topic", VStr "hope and wisdom")];
                        VDict [("location", VStr "Helm's Deep"); ("topic", VStr "bravery")]]])].

(** Out[11] *)
Definition Out11 (id : string) : pyval :=
  VDict [("ids", VList [VList [VStr id]]);
         ("embeddings", VNone);
         ("documents", VList [VList [VStr updated_text]]);
         ("uris", VNone);
         ("data", VNone);
         ("metadatas",
          VList [VList [VDict [("location", VStr "Fangorn Forest"); ("topic", VStr "hope and wisdom")]]]);
         ("distances", VList [VList [VFloat "0.7907481789588928"]]);
         ("included", VList [VStr "distances"; VStr "documents"; VStr "metadatas"])].

Definition answers (n : nat) (a : exn + pyval) : list (exn + pyval) := repeat a n.

(** The answers of the libraries, call by call, in a session where the
    store hands out the given ids; with [recorded_ids] these are the
    answers of the recorded session, after an answer to the install
    cell. *)
Definition session (ids : list string) : list (exn + pyval) :=
  [inr VNone]                                             (* pip install *)
  ++ [inr VNone; inr (VBool true)]                        (* cell 1 *)
  ++ [inr VNone; inr (VObj 1)]                            (* cell 2 *)
  ++ [inr VNone; inr (VObj 2)]                            (* cell 3 *)
  ++ [inr VNone] ++ map (fun n => inr (VObj n)) (seq 3 10)   (* cell 4 *)
  ++ [inr VNone; inr (VInt 10); inr VNone]                (* cell 5 *)
  ++ [inr (stored_documents ids)] ++ answers 11 (inr VNone)   (* cell 6 *)
  ++ [inr (stored_documents ids); inr VNone;
      inr (VList [updated_stored (hd EmptyString ids)]); inr VNone]   (* cell 7 *)
  ++ [inr VNone; inr (VInt 9); inr VNone]                 (* cell 8 *)
  ++ [inr search_results] ++ answers 3 (inr VNone)        (* cell 9 *)
  ++ [inr (Out11 (hd EmptyString ids))]                   (* cell 10 *)
  ++ [inr (VObj 13); inr (VList [VStr "example_collection"])]   (* cell 12 *)
  ++ [inr VNone]                                          (* cell 13 *)
  ++ [inr (VObj 13); inr (VList [])].                     (* cell 14 *)

Definition recorded : list (exn + pyval) := session recorded_ids.

(** A session in which the store fails when asked to update. *)
Definition update_fails : list (exn + pyval) :=
  firstn 34 recorded ++ [inl (LibError "update failed")].

(** The same session with other ids. *)
Definition other_ids : list string :=
  ["id-0"; "id-1"; "id-2"; "id-3"; "id-4"; "id-5"; "id-6"; "id-7"; "id-8"; "id-9"].

(** A session in which the store is empty when cell 7 asks for its
    documents. *)
Definition empty_store_session : list (exn + pyval) :=
  firstn 18 recorded
  ++ [inr VNone; inr (VInt 0); inr VNone]
  ++ [inr (VList []); inr VNone]
  ++ [inr (VList [])].

(** The constructor call one element of the list literal of cell 4
    makes. *)
Definition document_call (lit : string * (string * string)) : Call :=
  mk_call Document
    [Kw "text" (VStr (fst lit));
     Kw "metadata" (VDict [("topic", VStr (fst (snd lit)));
                           ("location", VStr (snd (snd lit)))])].

(** The embedder call of cell 2 and the store constructor call of
    cell 3. *)
Definition embedder_call : Call :=
  mk_call SentenceTransformerEmbedder [Kw "model" (VStr "all-MiniLM-L6-v2")].

Definition store_constructor_call (embedding_function : pyval) : Call :=
  mk_call ChromaVectorStore
    [Kw "name" (VStr "example_collection");
     Kw "embedding_function" embedding_function;
     Kw "persistent" (VBool false);
     Kw "host" (VStr "localhost");
     Kw "port" (VInt 8000)].

(** The [print] call of one turn of the loop of cell 6. *)
Definition doc_line (id text metadata : pyval) : Call :=
  mk_call print [Pos (fstring [Lit "ID: "; Fld id; Lit ", Text: "; Fld text;
                               Lit ", Metadata: "; Fld metadata])].

(** The two [print] calls of one turn of the loop of cell 9. *)
Definition result_lines (dm : pyval * pyval) : list Call :=
  [mk_call print [Pos (fstring [Lit "Text: "; Fld (fst dm)])];
   mk_call print [Pos (fstring [Lit "Metadata: "; Fld (snd dm)])]].

End NotebookB.

(* ===================================================================== *)
(** ** Reading a trace *)
(* ===================================================================== *)

Module Observe.

(** What a call is a call into. *)
Inductive Kind :=
| Config          (* loading the configuration from the environment *)
| AgentAPI        (* the agent part of the framework *)
| StoreAPI        (* the vector-store part of the framework *)
| Other.          (* imports, logging, pydantic, the shell, printing *)

Definition kind (c : Callee) : Kind :=
  match c with
  | load_dotenv => Config
  | tool | apply_decorator | ReActAgent | agent_prompt_template
  | agent_tools | tool_name | agent_run | agent_chat_history => AgentAPI
  | SentenceTransformerEmbedder | ChromaVectorStore | Document
  | store_add_documents | store_count | store_get | store_update
  | store_delete | store_search_similar | store_query_with_filters
  | store_client | client_list_collections | store_reset => StoreAPI
  | import_module | logging_basicConfig | pydantic_Field
  | BaseModel_subclass | shell | print => Other
  end.

(** No agent or store call comes before the first [load_dotenv()]. *)
Fixpoint config_first (cs : list Callee) : bool :=
  match cs with
  | [] => true
  | c :: rest =>
      match kind c with
      | Config => true
      | AgentAPI | StoreAPI => false
      | Other => config_first rest
      end
  end.

(** The constructor of the store and everything called on the store or
    on its client. *)
Definition is_store_op (c : Callee) : bool :=
  match c with
  | ChromaVectorStore
  | store_add_documents | store_count | store_get | store_update
  | store_delete | store_search_similar | store_query_with_filters
  | store_client | client_list_collections | store_reset => true
  | _ => false
  end.

(** What is called or read on the store object itself. *)
Definition is_store_method (c : Callee) : bool :=
  match c with
  | store_add_documents | store_count | store_get | store_update
  | store_delete | store_search_similar | store_query_with_filters
  | store_client | store_reset => true
  | _ => false
  end.

(** The seven operations notebook B demonstrates. *)
Definition is_demonstrated (c : Callee) : bool :=
  match c with
  | store_add_documents | store_get | store_update | store_delete
  | store_search_similar | store_query_with_filters | store_reset => true
  | _ => false
  end.

Fixpoint mem (c : Callee) (l : list Callee) : bool :=
  match l with
  | [] => false
  | x :: rest => Callee_eqb c x || mem c rest
  end.

(** Each callee once, in the order of its first occurrence. *)
Fixpoint first_occurrences (seen l : list Callee) : list Callee :=
  match l with
  | [] => []
  | c :: rest =>
      if mem c seen then first_occurrences seen rest
      else c :: first_occurrences (c :: seen) rest
  end.

Fixpoint count_callee (c : Callee) (l : list Callee) : nat :=
  match l with
  | [] => O
  | x :: rest => (if Callee_eqb c x then 1 else 0)%nat + count_callee c rest
  end.

(** The receiver of a method call. *)
Definition receiver (c : Call) : option pyval :=
  match args c with
  | Pos v :: _ => Some v
  | _ => None
  end.

(** The value of a keyword argument. *)
Fixpoint keyword (name : string) (a : list arg) : option pyval :=
  match a with
  | [] => None
  | Kw n v :: rest => if String.eqb n name then Some v else keyword name rest
  | Pos _ :: rest => keyword name rest
  end.

Section Traces.
Context {W : Type}.

(** The calls of a trace with their answers. *)
Definition observed (t : list (Event W)) : list (Call * (exn + pyval)) :=
  map (fun ev => (ev_call ev, ev_result ev)) t.

Definition store_events (t : list (Event W)) : list (Call * (exn + pyval)) :=
  filter (fun cr => is_store_op (callee (fst cr))) (observed t).

(** Every call of the trace is a [print]. *)
Definition all_print (t : list (Event W)) : bool :=
  forallb (fun ev => Callee_eqb (callee (ev_call ev)) print) t.

(** The functions a decorator was applied to, each with the tool object
    that came back. *)
Definition decorated (t : list (Event W)) : list (FunDef * pyval) :=
  flat_map (fun cr =>
              match callee (fst cr), args (fst cr), snd cr with
              | apply_decorator, [Pos _; Pos (VFun f)], inr v => [(f, v)]
              | _, _, _ => []
              end) (observed t).

(** The [tools=] argument of every [ReActAgent(...)] call. *)
Definition constructor_tools (t : list (Event W)) : list (option pyval) :=
  flat_map (fun cr =>
              match callee (fst cr) with
              | ReActAgent => [keyword "tools" (args (fst cr))]
              | _ => []
              end) (observed t).

(** The answers to the calls of one callee. *)
Definition answers_of (c : Callee) (t : list (Event W)) : list (exn + pyval) :=
  map snd (filter (fun cr => Callee_eqb (callee (fst cr)) c) (observed t)).

(** The calls of one callee. *)
Definition calls_of (c : Callee) (t : list (Event W)) : list Call :=
  filter (fun cl => Callee_eqb (callee cl) c) (calls t).

End Traces.

End Observe.
Import Observe.

(** A script with a [try]: the error of the call is caught. *)
Definition guarded_run (AIAgent : pyval) : Prog :=
  Try (call agent_run [Pos AIAgent; Pos (VStr "hello")])
      (fun _ => Ret (VStr "the agent failed"))
      Ret.

(* ===================================================================== *)
(** ** Guards and shapes of the runs of notebook B *)
(* ===================================================================== *)

Module Guards.
Local Open Scope list_scope.

(** [doc_id] is what the notebook reads as [retrieved[i]['id']]. *)
Definition reads_id (retrieved : pyval) (i : nat) (doc_id : pyval) : Prop :=
  exists element,
    subscript_int retrieved i = inr element /\
    subscript_str element "id" = inr doc_id.

Definition callees_of (se : list (Call * (exn + pyval))) : list Callee :=
  map (fun cr => callee (fst cr)) se.

Definition ids_of (se : list (Call * (exn + pyval))) : list (option pyval) :=
  map (fun cr => keyword "ids" (args (fst cr))) se.

(** What the store events of a run of notebook B look like, complete or
    not.  They are a beginning of [store_callee_sequence].  If the run
    stops right after the second [get] has answered, it stops on the
    error of reading [retrieved_docs[0]['id']].  If it reaches [update]
    (resp. [delete]), the id passed is the one read from element 0
    (resp. 2) of the answer to the second [get].  A run that returns
    has made all sixteen calls. *)
Definition shape_of (se : list (Call * (exn + pyval))) (o : Outcome) : Prop :=
  exists n : nat,
    callees_of se = firstn n NotebookB.store_callee_sequence /\
    (n = 5%nat ->
     forall retrieved,
       nth_error (map snd se) 4 = Some (inr retrieved) ->
       exists e,
         o = Uncaught e /\
         (subscript_int retrieved 0 = inl e \/
          exists first, subscript_int retrieved 0 = inr first /\
                        subscript_str first "id" = inl e)) /\
    ((5 < n)%nat ->
     exists retrieved doc_id,
       nth_error (map snd se) 4 = Some (inr retrieved) /\
       reads_id retrieved 0 doc_id /\
       nth_error (ids_of se) 5 = Some (Some (VList [doc_id]))) /\
    ((7 < n)%nat ->
     exists retrieved doc_id,
       nth_error (map snd se) 4 = Some (inr retrieved) /\
       reads_id retrieved 2 doc_id /\
       nth_error (ids_of se) 7 = Some (Some (VList [doc_id]))) /\
    (forall v, o = Returned v -> n = 16%nat).

(** The calls that build what notebook B puts into the store. *)
Definition is_setup (c : Callee) : bool :=
  match c with
  | SentenceTransformerEmbedder | ChromaVectorStore | Document
  | store_add_documents => true
  | _ => false
  end.

(** What the setup events of a completed run of notebook B are: the
    embedder, the store built on it, one [Document] per literal of the
    list in the order of the source, and [add_documents] on the list of
    the objects that came back. *)
Definition setup_of (se : list (Call * (exn + pyval))) (o : Outcome) : Prop :=
  forall v, o = Returned v ->
  exists embedding_function store ds added,
    List.length ds = List.length NotebookB.document_literals /\
    se = [(NotebookB.embedder_call, inr embedding_function);
          (NotebookB.store_constructor_call embedding_function, inr store)]
         ++ combine (map NotebookB.document_call NotebookB.document_literals) (map inr ds)
         ++ [(mk_call store_add_documents [Pos store; Kw "documents" (VList ds)],
              inr added)].

Section Selected.
Context {W : Type}.

(** The events of a trace whose callee is selected. *)
Definition select (sel : Callee -> bool) (t : list (Event W)) : list (Call * (exn + pyval)) :=
  filter (fun cr => sel (callee (fst cr))) (observed t).

(** The event, if selected, that a call with its answer adds. *)
Definition pick (sel : Callee -> bool) (c : Call) (r : exn + pyval) :
    list (Call * (exn + pyval)) :=
  if sel (callee c) then [(c, r)] else [].

(** [P] holds of the selected events seen so far followed by those of
    the run, and of the outcome of the run. *)
Definition holds (sel : Callee -> bool)
    (P : list (Call * (exn + pyval)) -> Outcome -> Prop)
    (seen : list (Call * (exn + pyval))) (r : Run W) : Prop :=
  P (seen ++ select sel (trace r)) (outcome r).

End Selected.

End Guards.
Import Guards.

(* ===================================================================== *)
(** ** The complete transcripts of the two notebooks *)
(* ===================================================================== *)

Module Transcripts.
Local Open Scope list_scope.

Definition import_call (module : string) : Call :=
  mk_call import_module [Pos (VStr module)].

Definition print_call (v : pyval) : Call := mk_call print [Pos v].

(** Every call is kept. *)
Definition everything (c : Callee) : bool := true.

(** The calls that leave the libraries for the shell. *)
Definition is_shell (c : Callee) : bool :=
  match c with
  | shell => true
  | _ => false
  end.

(** The line of the loop of cell 6 for one document: its three keys
    are read and printed. *)
Definition line_of (doc : pyval) (line : Call) : Prop :=
  exists id text metadata,
    subscript_str doc "id" = inr id /\
    subscript_str doc "document" = inr text /\
    subscript_str doc "metadata" = inr metadata /\
    line = NotebookB.doc_line id text metadata.

(** The calls of a completed run of notebook A, each with its answer.
    Every argument is a literal of the notebook or an object that an
    earlier call returned; [first] is [AIAgent.tools[0]]. *)
Section NotebookA.
Variables imported1 loaded imported2 configured imported3 imported4 : pyval.
Variables field1 schema1 decorator1 tool1 field2 schema2 decorator2 tool2 : pyval.
Variables imported5 agent template tools_read first name : pyval.
Variables answer1 history1 answer2 answer3 history2 : pyval.

Definition notebookA : list (Call * (exn + pyval)) :=
  [(import_call "dotenv", inr imported1);
   (mk_call load_dotenv [], inr loaded);
   (import_call "logging", inr imported2);
   (mk_call logging_basicConfig [Kw "level" NotebookA.logging_INFO], inr configured);
   (import_call "dapr_agents", inr imported3);
   (import_call "pydantic", inr imported4)]
  ++ NotebookA.declaration "GetWeatherSchema" "location" "location to get weather for"
       get_weather_def field1 schema1 decorator1 tool1
  ++ NotebookA.declaration "JumpSchema" "distance" "Distance for agent to jump"
       jump_def field2 schema2 decorator2 tool2
  ++ [(import_call "dapr_agents", inr imported5);
      (NotebookA.constructor_call (VList [tool1; tool2]), inr agent);
      (mk_call agent_prompt_template [Pos agent], inr template);
      (mk_call agent_tools [Pos agent], inr tools_read);
      (mk_call tool_name [Pos first], inr name);
      (NotebookA.run_call agent NotebookA.prompt1, inr answer1);
      (NotebookA.history_call agent, inr history1);
      (NotebookA.run_call agent NotebookA.prompt2, inr answer2);
      (NotebookA.run_call agent NotebookA.prompt3, inr answer3);
      (NotebookA.history_call agent, inr history2)].

End NotebookA.

(** The calls of a completed run of notebook B, each with its answer.
    [lines1] and [lines2] are the events of the loops of cells 6 and 9.
    Every argument is a literal of the notebook, an object or a value
    that an earlier call returned, or one of the two ids. *)
Section NotebookB.
Variables installed imported1 loaded imported2 embedding_function : pyval.
Variables imported3 store imported4 : pyval.
Variable documents : list pyval.
Variables added count1 printed1 shown printed2 : pyval.
Variable lines1 : list (Call * (exn + pyval)).
Variables retrieved_docs doc_id updated updated_doc printed3 : pyval.
Variables doc_id_to_delete deleted count2 printed4 results printed5 : pyval.
Variable lines2 : list (Call * (exn + pyval)).
Variables filtered_results client collections was_reset client' collections' : pyval.

Definition notebookB : list (Call * (exn + pyval)) :=
  [(NotebookB.pip_install, inr installed);
   (import_call "dotenv", inr imported1);
   (mk_call load_dotenv [], inr loaded);
   (import_call "dapr_agents.document.embedder", inr imported2);
   (NotebookB.embedder_call, inr embedding_function);
   (import_call "dapr_agents.storage", inr imported3);
   (NotebookB.store_constructor_call embedding_function, inr store);
   (import_call "dapr_agents.types.document", inr imported4)]
  ++ combine (map NotebookB.document_call NotebookB.document_literals) (map inr documents)
  ++ [(mk_call store_add_documents [Pos store; Kw "documents" (VList documents)], inr added);
      (mk_call store_count [Pos store], inr count1);
      (print_call (fstring [Lit "Number of documents in the collection: "; Fld count1]),
       inr printed1);
      (mk_call store_get [Pos store], inr shown);
      (print_call (VStr "Retrieved documents:"), inr printed2)]
  ++ lines1
  ++ [(mk_call store_get [Pos store], inr retrieved_docs);
      (mk_call store_update
         [Pos store; Kw "ids" (VList [doc_id]);
          Kw "documents" (VList [VStr NotebookB.updated_text]);
          Kw "metadatas" (VList [NotebookB.updated_metadata])], inr updated);
      (mk_call store_get [Pos store; Kw "ids" (VList [doc_id])], inr updated_doc);
      (print_call (fstring [Lit "Updated document: "; Fld updated_doc]), inr printed3);
      (mk_call store_delete [Pos store; Kw "ids" (VList [doc_id_to_delete])], inr deleted);
      (mk_call store_count [Pos store], inr count2);
      (print_call (fstring [Lit "Number of documents after deletion: "; Fld count2]),
       inr printed4);
      (mk_call store_search_similar
         [Pos store; Kw "query_texts" (VStr "wise advice"); Kw "k" (VInt 2)], inr results);
      (print_call (VStr "Similarity search results:"), inr printed5)]
  ++ lines2
  ++ [(mk_call store_query_with_filters
         [Pos store; Kw "query_texts" (VList [VStr "journey"]);
          Kw "where" NotebookB.filter_conditions; Kw "k" (VInt 3)], inr filtered_results);
      (mk_call store_client [Pos store], inr client);
      (mk_call client_list_collections [Pos client], inr collections);
      (mk_call store_reset [Pos store], inr was_reset);
      (mk_call store_client [Pos store], inr client');
      (mk_call client_list_collections [Pos client'], inr collections')].

End NotebookB.

(** What the events of a run of notebook A are when it returns. *)
Definition completed_A (se : list (Call * (exn + pyval))) (o : Outcome) : Prop :=
  forall v, o = Returned v ->
  exists imported1 loaded imported2 configured imported3 imported4
         field1 schema1 decorator1 tool1 field2 schema2 decorator2 tool2
         imported5 agent template tools_read first name
         answer1 history1 answer2 answer3,
    se = notebookA imported1 loaded imported2 configured imported3 imported4
           field1 schema1 decorator1 tool1 field2 schema2 decorator2 tool2
           imported5 agent template tools_read first name
           answer1 history1 answer2 answer3 v /\
    subscript_int tools_read 0 = inr first.

(** What the events of a run of notebook B are when it returns. *)
Definition completed_B (se : list (Call * (exn + pyval))) (o : Outcome) : Prop :=
  forall v, o = Returned v ->
  exists installed imported1 loaded imported2 embedding_function imported3 store imported4
         documents added count1 printed1 shown printed2 lines1
         retrieved_docs doc_id updated updated_doc printed3
         doc_id_to_delete deleted count2 printed4 results printed5 lines2
         filtered_results client collections was_reset client',
    se = notebookB installed imported1 loaded imported2 embedding_function imported3
           store imported4 documents added count1 printed1 shown printed2 lines1
           retrieved_docs doc_id updated updated_doc printed3
           doc_id_to_delete deleted count2 printed4 results printed5 lines2
           filtered_results client collections was_reset client' v /\
    List.length documents = List.length NotebookB.document_literals /\
    (exists docs, iterate shown = inr docs /\ Forall2 line_of docs (map fst lines1)) /\
    reads_id retrieved_docs 0 doc_id /\
    reads_id retrieved_docs 2 doc_id_to_delete /\
    (exists texts metadatas la lb,
        subscript_str results "documents" = inr texts /\
        subscript_str results "metadatas" = inr metadatas /\
        iterate texts = inr la /\ iterate metadatas = inr lb /\
        map fst lines2 = flat_map NotebookB.result_lines (combine la lb)).

End Transcripts.
Import Transcripts.

(* ===================================================================== *)
(** * Facts about the embedding *)
(* ===================================================================== *)

Local Open Scope list_scope.

Section ExecFacts.
Context {W : Type} (env : Call -> W -> (exn + pyval) * W).

Lemma after_nil (r : Run W) : after [] r = r.
Proof. destruct r; reflexivity. Qed.

Lemma after_after (t1 t2 : list (Event W)) (r : Run W) :
  after t1 (after t2 r) = after (t1 ++ t2) r.
Proof. unfold after; cbn. now rewrite app_assoc. Qed.

(** Running [p] and then [f] on its value: [f] runs only if [p] returned. *)
Lemma exec_bind (p : Prog) (f : pyval -> Prog) (w : W) :
  exec env (bind p f) w =
  match outcome (exec env p w) with
  | Returned v => after (trace (exec env p w)) (exec env (f v) (final (exec env p w)))
  | Uncaught _ => exec env p w
  end.
Proof.
  revert w; induction p as [v|e|c k IH|b IHb h IHh k IHk]; intros w; cbn.
  - now rewrite after_nil.
  - reflexivity.
  - destruct (env c w) as [[e|v] w']; cbn; [reflexivity|].
    rewrite IH. destruct (outcome (exec env (k v) w')); cbn; [|reflexivity].
    now rewrite after_after.
  - destruct (outcome (exec env b w)) as [v|e]; cbn.
    + rewrite IHk. destruct (outcome (exec env (k v) _)); cbn; [|reflexivity].
      now rewrite after_after.
    + destruct (outcome (exec env (h e) _)) as [v|e']; cbn; [|reflexivity].
      rewrite IHk. destruct (outcome (exec env (k v) _)); cbn; [|reflexivity].
      now rewrite after_after.
Qed.

Lemma try_free_bind (p : Prog) (f : pyval -> Prog) :
  try_free p -> (forall v, try_free (f v)) -> try_free (bind p f).
Proof.
  induction 1 as [v|e|c k _ IH]; intros Hf; cbn.
  - apply Hf.
  - constructor.
  - constructor. intros v. now apply IH.
Qed.

Lemma try_free_call (f : Callee) (a : list arg) : try_free (call f a).
Proof. constructor. intros v. constructor. Qed.

Lemma try_free_eval (r : exn + pyval) : try_free (eval r).
Proof. destruct r; constructor. Qed.

Lemma try_free_for_each (l : list pyval) (body : pyval -> Prog) :
  (forall x, try_free (body x)) -> try_free (for_each l body).
Proof.
  intros Hb. induction l as [|x l IH]; cbn.
  - constructor.
  - apply try_free_bind; [apply Hb | intros _; exact IH].
Qed.

Lemma try_free_for_in (v : pyval) (body : pyval -> Prog) :
  (forall x, try_free (body x)) -> try_free (for_in v body).
Proof.
  intros Hb. unfold for_in. destruct (iterate v).
  - constructor.
  - now apply try_free_for_each.
Qed.

Lemma try_free_for_pairs (l : list (pyval * pyval)) (body : pyval -> pyval -> Prog) :
  (forall x y, try_free (body x y)) -> try_free (for_pairs l body).
Proof.
  intros Hb. induction l as [|[x y] l IH]; cbn.
  - constructor.
  - apply try_free_bind; [apply Hb | intros _; exact IH].
Qed.

Lemma try_free_for_zip (a b : pyval) (body : pyval -> pyval -> Prog) :
  (forall x y, try_free (body x y)) -> try_free (for_zip a b body).
Proof.
  intros Hb. unfold for_zip. destruct (iterate a); [constructor|].
  destruct (iterate b); [constructor|]. now apply try_free_for_pairs.
Qed.

(** In a script without [try], an error raised by a call ends the run
    on the spot: the failing call is the last event and its error is
    the outcome. *)
Lemma try_free_propagates (p : Prog) :
  try_free p ->
  forall w t1 ev t2 e,
    trace (exec env p w) = t1 ++ ev :: t2 ->
    ev_result ev = inl e ->
    t2 = [] /\ outcome (exec env p w) = Uncaught e.
Proof.
  induction 1 as [v|e0|c k _ IH]; intros w t1 ev t2 e Ht He; cbn in *.
  - now destruct t1.
  - now destruct t1.
  - destruct (env c w) as [[e'|v] w']; cbn in *.
    + destruct t1 as [|x t1]; cbn in Ht.
      * injection Ht as <- <-. cbn in He. injection He as ->. now split.
      * injection Ht as _ Ht. now destruct t1.
    + destruct t1 as [|x t1]; cbn in Ht.
      * injection Ht as <- _. discriminate He.
      * injection Ht as _ Ht. exact (IH v w' t1 ev t2 e Ht He).
Qed.

(** Conversely, a run without [try] that returns met no error. *)
Lemma try_free_returned (p : Prog) :
  try_free p ->
  forall w v, outcome (exec env p w) = Returned v ->
              forallb (fun ev => negb (raised ev)) (trace (exec env p w)) = true.
Proof.
  induction 1 as [v0|e0|c k _ IH]; intros w v Hv; cbn in *; try reflexivity.
  destruct (env c w) as [[e'|v'] w']; cbn in *; [discriminate|].
  exact (IH v' w' v Hv).
Qed.

End ExecFacts.

(* ===================================================================== *)
(** * The tool functions *)
(* ===================================================================== *)

Section ToolFacts.
Import PyRandom Tools.

Lemma append_empty_r (s : string) : (s ++ EmptyString)%string = s.
Proof. induction s as [|c s IH]; cbn; [reflexivity | now rewrite IH]. Qed.

(** [randint] stays within its bounds, both included, and consumes one
    draw. *)
Lemma randint_inclusive (a b : Z) (g : rng) :
  a <= b ->
  exists t, (a <= t <= b) /\
            randint a b g = (inr t, mk_rng (entropy g) (S (cursor g))).
Proof.
  intros Hab. unfold randint.
  destruct (Z.ltb_spec b a) as [Hlt|_]; [lia|].
  eexists; split; [|reflexivity].
  pose proof (Z.mod_pos_bound (Z.of_N (entropy g (cursor g))) (b - a + 1)).
  lia.
Qed.

(** Both ends of the range are drawn by some generator. *)
Lemma randint_reaches (a b t : Z) :
  a <= t <= b ->
  fst (randint a b (const_rng (Z.to_N (t - a)))) = inr t.
Proof.
  intros Ht. unfold randint, const_rng; cbn [entropy cursor].
  destruct (Z.ltb_spec b a) as [Hlt|_]; [lia|]. cbn [fst].
  rewrite Z2N.id by lia. rewrite Z.mod_small by lia. f_equal. lia.
Qed.

(** C1. For every string [location], [get_weather] returns the string
    made of [location], then a colon and a space, then the decimal
    digits of an integer temperature between 60 and 80 (both included,
    as [random.randint(60, 80)] draws it), then "F.". *)
Theorem get_weather_format (location : string) (g : rng) :
  exists t : Z,
    (60 <= t <= 80) /\
    fst (get_weather location g) =
      inr (VStr (location ++ ": " ++ str_int t ++ "F.")%string).
Proof.
  destruct (randint_inclusive 60 80 g) as [t [Ht Hr]]; [lia|].
  exists t. split; [exact Ht|].
  unfold get_weather, PyRandom.bind. rewrite Hr. reflexivity.
Qed.

(** Every temperature of the range is returned under some generator. *)
Lemma get_weather_reaches (location : string) (t : Z) :
  60 <= t <= 80 ->
  fst (get_weather location (const_rng (Z.to_N (t - 60)))) =
    inr (VStr (location ++ ": " ++ str_int t ++ "F.")%string).
Proof.
  intros Ht. unfold get_weather, PyRandom.bind.
  pose proof (randint_reaches 60 80 t Ht) as Hr.
  destruct (randint 60 80 (const_rng (Z.to_N (t - 60)))) as [[e|t'] g'];
    cbn in Hr; [discriminate|]. injection Hr as ->. reflexivity.
Qed.

(** X5. Neither tool function raises, whatever its argument and the
    generator: each returns a string. *)
Lemma tools_never_raise (f : FunDef) (argument : string) (g : rng) :
  exists s : string, fst (body f argument g) = inr (VStr s).
Proof.
  destruct f; cbn [body].
  - eexists. reflexivity.
  - eexists. unfold ret, jump, fstring. cbn. reflexivity.
Qed.

(** The three observations logged in cell 9 are what [get_weather]
    returns for the three locations when the draws are 14, 5 and 6. *)
Lemma recorded_observations :
  call_each get_weather_def (map fst NotebookA.observations9) (rng_of [14; 5; 6]%N) =
  map (fun o => inr (VStr (snd o))) NotebookA.observations9.
Proof. reflexivity. Qed.

(** C2. For every string [distance], [jump] returns the fixed sentence
    followed by [distance]; called as a tool it returns this whatever
    the generator state and leaves the generator as it was, so two
    calls with one argument return one string. *)
Theorem jump_returns (distance : string) :
  jump distance = VStr ("I jumped the following distance " ++ distance)%string /\
  forall g g' : rng,
    fst (body jump_def distance g) = fst (body jump_def distance g') /\
    snd (body jump_def distance g) = g.
Proof.
  split; [|intros g g'; split; reflexivity].
  unfold jump, fstring; cbn. now rewrite append_empty_r.
Qed.

(** C7. The result of [get_weather] is not a function of its argument:
    no function of the location gives its result under every generator,
    and two calls in a row with one location can return two different
    strings. *)
Theorem get_weather_not_deterministic :
  (~ exists f : string -> exn + pyval,
       forall location g, fst (get_weather location g) = f location) /\
  (exists location g,
      fst (get_weather location g) <>
      fst (get_weather location (snd (get_weather location g)))).
Proof.
  split.
  - intros [f Hf].
    pose proof (Hf "Virginia"%string (const_rng 14)) as H1.
    pose proof (Hf "Virginia"%string (const_rng 5)) as H2.
    rewrite <- H2 in H1. vm_compute in H1. discriminate H1.
  - exists "Virginia"%string, counting_rng. vm_compute. discriminate.
Qed.

End ToolFacts.

(* ===================================================================== *)
(** * Notebook A *)
(* ===================================================================== *)

Arguments subscript_int : simpl never.
Arguments subscript_str : simpl never.
Arguments fstring : simpl never.
Arguments for_in : simpl never.
Arguments for_zip : simpl never.

(** One step of a run against an arbitrary environment: split on the
    answer to the next call, or on the result of the next subscript;
    the branch that raises is closed by [tac]. *)
Ltac step env tac :=
  match goal with
  | |- context [env ?c ?w] =>
      destruct (env c w) as [[?e|?v] ?w]; cbn; [tac|]
  | |- context [eval ?r] =>
      destruct r as [?e|?v] eqn:?; cbn; [tac|]
  end.

(** Find how many calls of a sequence a trace has made. *)
Ltac find_prefix n k :=
  first [ exists n; reflexivity
        | lazymatch k with
          | S ?k' => find_prefix (S n) k'
          end ].

Section NotebookAFacts.
Context {W : Type} (env : Call -> W -> (exn + pyval) * W).

(** What a completed run of notebook A looks like, whatever the
    libraries answer. *)
Lemma notebookA_run (w : W) :
  match outcome (exec env NotebookA.notebook w) with
  | Uncaught _ => True
  | Returned v =>
      let t := trace (exec env NotebookA.notebook w) in
      callees t = NotebookA.callee_sequence /\
      forallb (fun ev => negb (raised ev)) t = true /\
      exists tool1 tool2 agent r1 r2 r3 h1,
        decorated t = [(get_weather_def, tool1); (jump_def, tool2)] /\
        constructor_tools t = [Some (VList [tool1; tool2])] /\
        answers_of ReActAgent t = [inr agent] /\
        calls_of agent_run t =
          [NotebookA.run_call agent NotebookA.prompt1;
           NotebookA.run_call agent NotebookA.prompt2;
           NotebookA.run_call agent NotebookA.prompt3] /\
        answers_of agent_run t = [inr r1; inr r2; inr r3] /\
        calls_of agent_chat_history t =
          [NotebookA.history_call agent; NotebookA.history_call agent] /\
        answers_of agent_chat_history t = [inr h1; inr v]
  end.
Proof.
  unfold NotebookA.notebook, NotebookA.cell1, NotebookA.cell2, NotebookA.cell3,
    NotebookA.cell4, NotebookA.cell5, NotebookA.cell6, NotebookA.cell7,
    NotebookA.cell8, NotebookA.cell9, NotebookA.cell10, NotebookA.cell11.
  cbn.
  repeat (step env ltac:(exact I)).
  split; [reflexivity|]. split; [reflexivity|].
  do 7 eexists. repeat split; reflexivity.
Qed.

(** Whether it completes or not, a run of notebook A makes the calls of
    [callee_sequence] in order, up to the point where it stops. *)
Lemma notebookA_calls_prefix (w : W) :
  exists n : nat,
    callees (trace (exec env NotebookA.notebook w)) = firstn n NotebookA.callee_sequence.
Proof.
  unfold NotebookA.notebook, NotebookA.cell1, NotebookA.cell2, NotebookA.cell3,
    NotebookA.cell4, NotebookA.cell5, NotebookA.cell6, NotebookA.cell7,
    NotebookA.cell8, NotebookA.cell9, NotebookA.cell10, NotebookA.cell11.
  cbn.
  repeat (step env ltac:(find_prefix 0%nat 24%nat)).
  exists 24%nat. reflexivity.
Qed.

(** C3. Notebook A, once the tools are declared and the agent is
    constructed, calls [AIAgent.run] exactly three times, one after the
    other (each has returned when the next call is made), and reads the
    agent's chat history afterwards.  In a run of the notebook that
    completes, whatever the libraries answer: the calls are those of
    [callee_sequence], none of them raised, the three [run] calls are
    made with the three prompts on the object the constructor returned,
    and they come after both decorators and the constructor, with a
    read of [chat_history] after the first and after the third. *)
Theorem notebookA_three_runs (w : W) (v : pyval) :
  outcome (exec env NotebookA.notebook w) = Returned v ->
  let t := trace (exec env NotebookA.notebook w) in
  callees t = NotebookA.callee_sequence /\
  forallb (fun ev => negb (raised ev)) t = true /\
  count_callee agent_run (callees t) = 3%nat /\
  (exists setup,
      callees t = setup ++ [agent_run; agent_chat_history; agent_run; agent_run;
                            agent_chat_history] /\
      count_callee agent_run setup = 0%nat /\
      count_callee apply_decorator setup = 2%nat /\
      count_callee ReActAgent setup = 1%nat) /\
  (exists agent,
      answers_of ReActAgent t = [inr agent] /\
      calls_of agent_run t =
        [NotebookA.run_call agent NotebookA.prompt1;
         NotebookA.run_call agent NotebookA.prompt2;
         NotebookA.run_call agent NotebookA.prompt3] /\
      calls_of agent_chat_history t =
        [NotebookA.history_call agent; NotebookA.history_call agent]).
Proof.
  intros Hv. pose proof (notebookA_run w) as H. rewrite Hv in H.
  destruct H as (Hc & Hr & tool1 & tool2 & agent & r1 & r2 & r3 & h1 &
                 _ & _ & Ha & Hruns & _ & Hh & _).
  cbv zeta. rewrite Hc. split; [reflexivity|]. split; [exact Hr|].
  split; [reflexivity|]. split.
  - exists (firstn 19 NotebookA.callee_sequence). repeat split; reflexivity.
  - exists agent. repeat split; assumption.
Qed.

(** Whatever the libraries answer, in a run of notebook A that
    completes a decorator is applied to exactly two
    functions, [get_weather] and then [jump], and the [tools] argument
    of the one [ReActAgent] call is the list of the two tool objects
    that came back, and nothing else. *)
Lemma notebookA_tools_passed (w : W) (v : pyval) :
  outcome (exec env NotebookA.notebook w) = Returned v ->
  let t := trace (exec env NotebookA.notebook w) in
  exists tool1 tool2,
    decorated t = [(get_weather_def, tool1); (jump_def, tool2)] /\
    constructor_tools t = [Some (VList [tool1; tool2])].
Proof.
  intros Hv. pose proof (notebookA_run w) as H. rewrite Hv in H.
  destruct H as (_ & _ & tool1 & tool2 & agent & r1 & r2 & r3 & h1 &
                 Hd & Ht & _).
  exists tool1, tool2. now split.
Qed.

End NotebookAFacts.

(** The witness for C3: the recorded session completes. *)
Lemma notebookA_three_runs_witness :
  count_callee agent_run
    (callees (trace (exec AgentModel.env NotebookA.notebook AgentModel.recorded))) = 3%nat.
Proof.
  exact (proj1 (proj2 (proj2
    (notebookA_three_runs AgentModel.env AgentModel.recorded NotebookA.Out11 eq_refl)))).
Defined.

(** The recorded session, replayed on the model of the framework: the
    values the cells display are the outputs stored in the notebook. *)
Lemma recorded_session_replayed :
  let r := exec AgentModel.env NotebookA.notebook AgentModel.recorded in
  outcome r = Returned NotebookA.Out11 /\
  answers_of load_dotenv (trace r) = [inr NotebookA.Out1] /\
  answers_of tool_name (trace r) = [inr NotebookA.Out6] /\
  answers_of agent_run (trace r) =
    [inr NotebookA.Out7; inr NotebookA.Out9; inr NotebookA.Out10] /\
  answers_of agent_chat_history (trace r) = [inr NotebookA.Out8; inr NotebookA.Out11] /\
  AgentModel.log (final r) = NotebookA.log4.
Proof. repeat split; reflexivity. Qed.

(** C5. Notebook A defines exactly two tool functions, [get_weather] and
    [jump]; the [tools] list passed to the [ReActAgent] constructor
    holds exactly the two tool objects made from them; and the agent
    constructed registers exactly 2 tools, the first of them named
    GetWeather.  The first two parts hold in every completed run,
    whatever the libraries answer; the last is read off the model of the
    framework and agrees with the log of cell 4 and with Out[6]. *)
Theorem notebookA_two_tools {W : Type} (env : Call -> W -> (exn + pyval) * W)
    (w : W) (v : pyval) :
  outcome (exec env NotebookA.notebook w) = Returned v ->
  (forall f : FunDef, f = get_weather_def \/ f = jump_def) /\
  (exists tool1 tool2,
      decorated (trace (exec env NotebookA.notebook w)) =
        [(get_weather_def, tool1); (jump_def, tool2)] /\
      constructor_tools (trace (exec env NotebookA.notebook w)) =
        [Some (VList [tool1; tool2])]) /\
  (let r := exec AgentModel.env NotebookA.notebook AgentModel.recorded in
   List.length (AgentModel.registered (final r)) = 2%nat /\
   AgentModel.registered_names (final r) = ["GetWeather"; "Jump"]%string /\
   answers_of tool_name (trace r) = [inr (VStr "GetWeather")] /\
   AgentModel.log (final r) = NotebookA.log4).
Proof.
  intros Hv. split; [intros []; auto|]. split.
  - exact (notebookA_tools_passed env w v Hv).
  - repeat split; reflexivity.
Qed.

(** The witness for C5: the recorded session completes. *)
Lemma notebookA_two_tools_witness :
  exists tool1 tool2,
    decorated (trace (exec AgentModel.env NotebookA.notebook AgentModel.recorded)) =
      [(get_weather_def, tool1); (jump_def, tool2)] /\
    constructor_tools (trace (exec AgentModel.env NotebookA.notebook AgentModel.recorded)) =
      [Some (VList [tool1; tool2])].
Proof.
  exact (proj1 (proj2
    (notebookA_two_tools AgentModel.env AgentModel.recorded NotebookA.Out11 eq_refl))).
Defined.

(** In the model, one [run] on a prompt that is not empty leaves the
    entries already in the history as they are and adds two, or raises
    having added the prompt alone. *)
Lemma model_run_appends (w : AgentModel.World) (agent : pyval) (prompt : string) :
  prompt <> EmptyString ->
  match AgentModel.env (NotebookA.run_call agent prompt) w with
  | (inr v, w') =>
      exists answer,
        v = VStr answer /\
        AgentModel.chat_history w' =
          AgentModel.chat_history w ++
            [NotebookA.user_message prompt; NotebookA.assistant_message answer]
  | (inl _, w') =>
      AgentModel.chat_history w' =
        AgentModel.chat_history w ++ [NotebookA.user_message prompt]
  end.
Proof.
  intros Hp. cbn.
  assert (Hu : AgentModel.user_entry prompt = [NotebookA.user_message prompt])
    by (destruct prompt; [contradiction | reflexivity]).
  destruct (AgentModel.llm w) as [|answer rest]; cbn; rewrite Hu; [reflexivity|].
  exists answer. now split.
Qed.

(** C8. Across the three [run] calls of notebook A the chat history only
    grows: each run leaves the earlier entries unchanged and appends
    exactly two, the user's prompt and then the assistant's final
    answer, so that the history holds 2 entries after the first run and
    6 after the third.  Stated on the model of the framework for any
    three final answers; with the recorded answers the two histories
    displayed are Out[8] and Out[11], and Out[11] as stored in the
    notebook is Out[8] followed by the second and third prompts, each
    with the answer displayed for it. *)
Theorem chat_history_append_only (a1 a2 a3 : string) :
  let r := exec AgentModel.env NotebookA.notebook (AgentModel.init [a1; a2; a3]) in
  let h1 := [NotebookA.user_message NotebookA.prompt1; NotebookA.assistant_message a1] in
  let h2 := h1 ++ [NotebookA.user_message NotebookA.prompt2; NotebookA.assistant_message a2] in
  let h3 := h2 ++ [NotebookA.user_message NotebookA.prompt3; NotebookA.assistant_message a3] in
  AgentModel.histories_after_runs (trace r) = [h1; h2; h3] /\
  answers_of agent_chat_history (trace r) = [inr (VList h1); inr (VList h3)] /\
  List.length h1 = 2%nat /\
  List.length h3 = 6%nat /\
  answers_of agent_chat_history
    (trace (exec AgentModel.env NotebookA.notebook AgentModel.recorded)) =
    [inr NotebookA.Out8; inr NotebookA.Out11] /\
  NotebookA.Out8 =
    VList [NotebookA.user_message NotebookA.prompt1;
           NotebookA.assistant_message NotebookA.answer1] /\
  (exists h8, NotebookA.Out8 = VList h8 /\
              NotebookA.Out11 =
                VList (h8 ++ [NotebookA.user_message NotebookA.prompt2;
                              NotebookA.assistant_message NotebookA.answer2;
                              NotebookA.user_message NotebookA.prompt3;
                              NotebookA.assistant_message NotebookA.answer3])).
Proof.
  repeat (split; [reflexivity|]).
  eexists; split; reflexivity.
Qed.

(* ===================================================================== *)
(** * Notebook B *)
(* ===================================================================== *)

Arguments store_events : simpl never.
Arguments all_print : simpl never.

Section PrintLoops.
Context {W : Type} (env : Call -> W -> (exn + pyval) * W).

Lemma store_events_cons (ev : Event W) (t : list (Event W)) :
  store_events (ev :: t) =
  (if is_store_op (callee (ev_call ev)) then [(ev_call ev, ev_result ev)] else [])
    ++ store_events t.
Proof.
  unfold store_events, observed; cbn.
  now destruct (is_store_op (callee (ev_call ev))).
Qed.

Lemma store_events_app (t1 t2 : list (Event W)) :
  store_events (t1 ++ t2) = store_events t1 ++ store_events t2.
Proof. unfold store_events, observed. now rewrite map_app, filter_app. Qed.

Lemma all_print_app (t1 t2 : list (Event W)) :
  all_print (t1 ++ t2) = all_print t1 && all_print t2.
Proof. apply forallb_app. Qed.

Lemma all_print_no_store (t : list (Event W)) :
  all_print t = true -> store_events t = [].
Proof.
  induction t as [|ev t IH]; intros H; [reflexivity|].
  unfold all_print in H; cbn in H. apply andb_prop in H as [Hev Ht].
  rewrite store_events_cons, (IH Ht).
  destruct (callee (ev_call ev)); try discriminate Hev. reflexivity.
Qed.

Lemma bind_prints (p : Prog) (f : pyval -> Prog) :
  (forall w, all_print (trace (exec env p w)) = true) ->
  (forall v w, all_print (trace (exec env (f v) w)) = true) ->
  forall w, all_print (trace (exec env (bind p f) w)) = true.
Proof.
  intros Hp Hf w. rewrite exec_bind.
  destruct (outcome (exec env p w)) as [v|e]; [|apply Hp].
  cbn. rewrite all_print_app, Hp, Hf. reflexivity.
Qed.

Lemma print_prints (a : list arg) (w : W) :
  all_print (trace (exec env (call print a) w)) = true.
Proof. cbn. now destruct (env _ w) as [[e|v] w']. Qed.

Lemma eval_prints (r : exn + pyval) (w : W) :
  all_print (trace (exec env (eval r) w)) = true.
Proof. now destruct r. Qed.

Lemma print_doc_prints (doc : pyval) (w : W) :
  all_print (trace (exec env (NotebookB.print_doc doc) w)) = true.
Proof.
  revert w. unfold NotebookB.print_doc.
  repeat (apply bind_prints; [intros w; apply eval_prints | intros ?v]).
  intros w; apply print_prints.
Qed.

Lemma print_result_prints (doc metadata : pyval) (w : W) :
  all_print (trace (exec env (NotebookB.print_result doc metadata) w)) = true.
Proof.
  revert w. unfold NotebookB.print_result.
  apply bind_prints; [|intros _]; intros w; apply print_prints.
Qed.

Lemma for_in_prints (v : pyval) (w : W) :
  all_print (trace (exec env (for_in v NotebookB.print_doc) w)) = true.
Proof.
  unfold for_in. destruct (iterate v) as [e|l]; [reflexivity|].
  revert w. induction l as [|x l IH]; intros w; [reflexivity|].
  cbn [for_each]. apply bind_prints; [apply print_doc_prints | intros _; exact IH].
Qed.

Lemma for_zip_prints (a b : pyval) (w : W) :
  all_print (trace (exec env (for_zip a b NotebookB.print_result) w)) = true.
Proof.
  unfold for_zip. destruct (iterate a) as [e|la]; [reflexivity|].
  destruct (iterate b) as [e|lb]; [reflexivity|].
  revert w. induction (combine la lb) as [|[x y] l IH]; intros w; [reflexivity|].
  cbn [for_pairs]. apply bind_prints; [apply print_result_prints | intros _; exact IH].
Qed.

End PrintLoops.

(** One step over a printing loop: if the loop raises the run is over,
    otherwise it has added only [print] events. *)
Ltac step_loop env tac :=
  match goal with
  | |- context [exec env (bind (for_in ?v ?b) ?k) ?w] =>
      rewrite (exec_bind env (for_in v b) k w);
      let Hp := fresh "Hprint" in
      pose proof (for_in_prints env v w) as Hp;
      apply all_print_no_store in Hp;
      destruct (exec env (for_in v b) w) as [[?v|?e] ?w ?t];
      cbn [outcome trace final after] in *; [|tac]
  | |- context [exec env (bind (for_zip ?a ?b NotebookB.print_result) ?k) ?w] =>
      rewrite (exec_bind env (for_zip a b NotebookB.print_result) k w);
      let Hp := fresh "Hprint" in
      pose proof (for_zip_prints env a b w) as Hp;
      apply all_print_no_store in Hp;
      destruct (exec env (for_zip a b NotebookB.print_result) w) as [[?v|?e] ?w ?t];
      cbn [outcome trace final after] in *; [|tac]
  end.

Section NotebookBFacts.
Context {W : Type} (env : Call -> W -> (exn + pyval) * W).

(** What a completed run of notebook B asks of the store, whatever the
    libraries answer. *)
Lemma notebookB_run (w : W) :
  match outcome (exec env NotebookB.notebook w) with
  | Uncaught _ => True
  | Returned v =>
      exists embedding_function store documents added count1 shown retrieved_docs
             doc_id updated updated_doc doc_id_to_delete deleted count2 results
             filtered_results client collections was_reset client' first third,
        store_events (trace (exec env NotebookB.notebook w)) =
          NotebookB.store_session embedding_function store documents added count1
            shown retrieved_docs doc_id updated updated_doc doc_id_to_delete
            deleted count2 results filtered_results client collections was_reset
            client' v /\
        subscript_int retrieved_docs 0 = inr first /\
        subscript_str first "id" = inr doc_id /\
        subscript_int retrieved_docs 2 = inr third /\
        subscript_str third "id" = inr doc_id_to_delete
  end.
Proof.
  unfold NotebookB.notebook, NotebookB.cell0, NotebookB.cell1, NotebookB.cell2,
    NotebookB.cell3, NotebookB.cell4, NotebookB.cell5, NotebookB.cell6,
    NotebookB.cell7, NotebookB.cell8, NotebookB.cell9, NotebookB.cell10,
    NotebookB.cell11, NotebookB.cell14, NotebookB.cell12, NotebookB.cell13.
  cbn.
  repeat (step env ltac:(exact I) || (step_loop env ltac:(exact I); cbn)).
  do 21 eexists. split.
  - repeat (rewrite store_events_cons || rewrite store_events_app).
    rewrite Hprint, Hprint0. cbn. reflexivity.
  - repeat split; eassumption.
Qed.

End NotebookBFacts.

Section NotebookBClaims.
Context {W : Type} (env : Call -> W -> (exn + pyval) * W).

(** C4, as the code has it.  In a run of notebook B that completes,
    whatever the libraries answer, the calls on the store and its client
    are those of [store_callee_sequence]: the seven operations are first
    reached in the order add_documents, get, update, delete,
    search_similar, query_with_filters, reset, and each of them but
    [get] is called once; [get] is called three times (on its own,
    before [update] to read an id, after [update] to read the document
    back), [count] twice and [client.list_collections] twice.  Every
    method call is made directly on the object the constructor
    returned.  The ids given to [update] and [delete] are computed in
    the notebook: the ['id'] of element 0 and of element 2 of the list
    the second [get] returned. *)
Theorem notebookB_store_operations (w : W) (v : pyval) :
  outcome (exec env NotebookB.notebook w) = Returned v ->
  let se := store_events (trace (exec env NotebookB.notebook w)) in
  let cs := map (fun cr => callee (fst cr)) se in
  cs = NotebookB.store_callee_sequence /\
  first_occurrences [] (filter is_demonstrated cs) = NotebookB.demonstrated_order /\
  map (fun c => count_callee c cs) NotebookB.demonstrated_order =
    [1; 3; 1; 1; 1; 1; 1]%nat /\
  count_callee store_count cs = 2%nat /\
  count_callee client_list_collections cs = 2%nat /\
  (exists store,
      nth_error (map snd se) 0 = Some (inr store) /\
      map (fun cr => receiver (fst cr))
          (filter (fun cr => is_store_method (callee (fst cr))) se) =
        repeat (Some store) 13) /\
  (exists retrieved_docs first doc_id third doc_id_to_delete,
      nth_error (map snd se) 4 = Some (inr retrieved_docs) /\
      subscript_int retrieved_docs 0 = inr first /\
      subscript_str first "id" = inr doc_id /\
      subscript_int retrieved_docs 2 = inr third /\
      subscript_str third "id" = inr doc_id_to_delete /\
      map (fun cr => keyword "ids" (args (fst cr))) se =
        [None; None; None; None; None;
         Some (VList [doc_id]); Some (VList [doc_id]); Some (VList [doc_id_to_delete]);
         None; None; None; None; None; None; None; None]).
Proof.
  intros Hv. pose proof (notebookB_run env w) as H. rewrite Hv in H.
  destruct H as (embedding_function & store & documents & added & count1 & shown &
                 retrieved_docs & doc_id & updated & updated_doc & doc_id_to_delete &
                 deleted & count2 & results & filtered_results & client &
                 collections & was_reset & client' & first & third &
                 Hse & H0 & Hid0 & H2 & Hid2).
  cbv zeta. rewrite Hse.
  repeat (split; [reflexivity|]). split.
  - exists store. split; reflexivity.
  - exists retrieved_docs, first, doc_id, third, doc_id_to_delete.
    repeat (split; [first [reflexivity | assumption]|]). reflexivity.
Qed.

End NotebookBClaims.

(** The witness for C4: the recorded session completes, and its calls
    on the store are the sixteen of [store_callee_sequence]. *)
Lemma notebookB_store_operations_witness :
  map (fun cr => callee (fst cr))
      (store_events (trace (exec scripted NotebookB.notebook NotebookB.recorded))) =
  NotebookB.store_callee_sequence.
Proof.
  exact (proj1 (notebookB_store_operations scripted NotebookB.recorded (VList []) eq_refl)).
Defined.

(** C4 as it is worded does not hold: in the recorded session the calls
    made on the store object are not the seven operations, one call
    each (there are thirteen of them). *)
Lemma notebookB_not_seven_calls :
  map (fun cr => callee (fst cr))
      (filter (fun cr => is_store_method (callee (fst cr)))
              (store_events (trace (exec scripted NotebookB.notebook NotebookB.recorded)))) <>
  NotebookB.demonstrated_order.
Proof. vm_compute. discriminate. Qed.

(* ===================================================================== *)
(** * Errors and configuration, in both notebooks *)
(* ===================================================================== *)

Ltac no_try :=
  repeat first
    [ apply try_free_call
    | apply try_free_eval
    | apply try_free_for_in; intros ?x
    | apply try_free_for_zip; intros ?x ?y
    | apply try_free_bind; [|intros ?v]
    | apply tf_ret ].

Lemma notebookA_try_free : try_free NotebookA.notebook.
Proof.
  unfold NotebookA.notebook, NotebookA.cell1, NotebookA.cell2, NotebookA.cell3,
    NotebookA.cell4, NotebookA.cell5, NotebookA.cell6, NotebookA.cell7,
    NotebookA.cell8, NotebookA.cell9, NotebookA.cell10, NotebookA.cell11.
  no_try.
Qed.

Lemma build_documents_try_free lits built :
  try_free (NotebookB.build_documents lits built).
Proof.
  revert built. induction lits as [|[text [topic location]] lits IH]; intros built; cbn.
  - constructor.
  - constructor. intros d. apply IH.
Qed.

Lemma notebookB_try_free : try_free NotebookB.notebook.
Proof.
  unfold NotebookB.notebook, NotebookB.cell0, NotebookB.cell1, NotebookB.cell2,
    NotebookB.cell3, NotebookB.cell4, NotebookB.cell5, NotebookB.cell6,
    NotebookB.cell7, NotebookB.cell8, NotebookB.cell9, NotebookB.cell10,
    NotebookB.cell11, NotebookB.cell14, NotebookB.cell12, NotebookB.cell13,
    NotebookB.print_doc, NotebookB.print_result.
  no_try; apply build_documents_try_free.
Qed.

(** A [try] does swallow the error of a call: the property below is one
    of the notebooks, not of every script. *)
Lemma guarded_run_swallows :
  let r := exec AgentModel.env (guarded_run (VObj 0)) (AgentModel.init []) in
  map raised (trace r) = [true] /\ outcome r = Returned (VStr "the agent failed").
Proof. split; reflexivity. Qed.



(** When the store is empty at cell 7, the subscript of the notebook
    itself raises, and nothing catches that either. *)
Lemma empty_store_index_error :
  outcome (exec scripted NotebookB.notebook NotebookB.empty_store_session) =
  Uncaught IndexError.
Proof. reflexivity. Qed.

Section Configuration.
Context {WA WB : Type}
        (envA : Call -> WA -> (exn + pyval) * WA)
        (envB : Call -> WB -> (exn + pyval) * WB).

Lemma notebookA_config_first (w : WA) :
  config_first (callees (trace (exec envA NotebookA.notebook w))) = true.
Proof.
  unfold NotebookA.notebook, NotebookA.cell1. cbn.
  do 2 (step envA ltac:(reflexivity)). reflexivity.
Qed.

Lemma notebookB_config_first (w : WB) :
  config_first (callees (trace (exec envB NotebookB.notebook w))) = true /\
  hd_error (calls (trace (exec envB NotebookB.notebook w))) = Some NotebookB.pip_install.
Proof.
  unfold NotebookB.notebook, NotebookB.cell0, NotebookB.cell1. cbn.
  step envB ltac:(split; reflexivity).
  do 2 (step envB ltac:(split; reflexivity)). split; reflexivity.
Qed.

End Configuration.


(* ===================================================================== *)
(** * Further properties of the tool functions *)
(* ===================================================================== *)

Section ToolExtras.
Import PyRandom Tools.

Lemma length_append (a b : string) :
  String.length (a ++ b)%string = (String.length a + String.length b)%nat.
Proof. induction a as [|c a IH]; cbn; [reflexivity | now rewrite IH]. Qed.

Lemma append_cancel_l (s a b : string) : (s ++ a)%string = (s ++ b)%string -> a = b.
Proof. induction s as [|c s IH]; cbn; intros H; [exact H | injection H as H; auto]. Qed.

Lemma append_cancel_r (s a b : string) : (a ++ s)%string = (b ++ s)%string -> a = b.
Proof.
  revert b. induction a as [|c a IH]; intros [|d b] H; cbn in H.
  - reflexivity.
  - apply (f_equal String.length) in H. cbn in H. rewrite length_append in H. lia.
  - apply (f_equal String.length) in H. cbn in H. rewrite length_append in H. lia.
  - injection H as -> H. f_equal. now apply IH.
Qed.

(** [str] of an integer can be read back: it is injective. *)
Lemma str_int_inj (z1 z2 : Z) : str_int z1 = str_int z2 -> z1 = z2.
Proof.
  unfold str_int. intros H.
  assert (Hn : forall z, Z.to_int z <> Decimal.Pos Decimal.Nil /\
                         Z.to_int z <> Decimal.Neg Decimal.Nil).
  { intros [|p|p]; cbn; split; try discriminate;
      intros [= Hp]; now apply (Unsigned.to_uint_nonnil p). }
  apply (f_equal NilZero.int_of_string) in H.
  rewrite !NilZero.isi in H by apply Hn.
  injection H as H. now apply DecimalZ.to_int_inj.
Qed.

Lemma get_weather_step (location : string) (g : rng) :
  get_weather location g =
  (inr (VStr (location ++ ": " ++ str_int (60 + next_draw g mod 21) ++ "F.")%string),
   mk_rng (entropy g) (S (cursor g))).
Proof. reflexivity. Qed.

(** X1. Calls in a row use draws in a row: when [get_weather] is called
    on each location of a list in turn, on one generator, the k-th
    answer is made of the k-th location and of the draw k places after
    the cursor the generator started with. *)
Theorem get_weather_kth_call (locations : list string) (g : rng) (k : nat) (location : string) :
  nth_error locations k = Some location ->
  nth_error (call_each get_weather_def locations g) k =
  Some (inr (VStr (location ++ ": "
                   ++ str_int (60 + Z.of_N (entropy g (cursor g + k)%nat) mod 21)
                   ++ "F.")%string)).
Proof.
  revert g k. induction locations as [|l ls IH]; intros g [|k] H; cbn in H; try discriminate.
  - injection H as ->. cbn [call_each body nth_error]. rewrite get_weather_step. cbn [fst].
    unfold next_draw. now rewrite Nat.add_0_r.
  - cbn [call_each body nth_error]. rewrite get_weather_step. cbn [snd].
    rewrite (IH _ _ H). cbn [entropy cursor]. now rewrite Nat.add_succ_r.
Qed.

Lemma str_int_two_digits (t : Z) : 60 <= t <= 80 -> String.length (str_int t) = 2%nat.
Proof.
  intros Ht. replace t with (60 + Z.of_nat (Z.to_nat (t - 60))) by lia.
  assert (Hn : (Z.to_nat (t - 60) < 21)%nat) by lia.
  revert Hn. generalize (Z.to_nat (t - 60)). intros n Hn.
  do 21 (destruct n as [|n]; [reflexivity|]). lia.
Qed.

(** X2. The answer of [get_weather] is always exactly six characters
    longer than the location: a colon, a space, two digits (the
    temperature never has one digit or three), "F" and a full stop. *)
Theorem get_weather_length (location : string) (g : rng) :
  exists s, fst (get_weather location g) = inr (VStr s) /\
            String.length s = (String.length location + 6)%nat.
Proof.
  rewrite get_weather_step. eexists. split; [reflexivity|].
  pose proof (Z.mod_pos_bound (next_draw g) 21 ltac:(lia)) as Hd.
  rewrite !length_append, (str_int_two_digits (60 + next_draw g mod 21)) by lia.
  cbn. lia.
Qed.

(** X3. For one location, two generators give the same answer exactly
    when their next draws are equal modulo 21; so [get_weather] has 21
    different answers per location, one per temperature. *)
Theorem get_weather_same_iff (location : string) (g1 g2 : rng) :
  fst (get_weather location g1) = fst (get_weather location g2) <->
  next_draw g1 mod 21 = next_draw g2 mod 21.
Proof.
  rewrite !get_weather_step. cbn [fst].
  generalize (next_draw g1 mod 21) (next_draw g2 mod 21). intros a b. split.
  - intros H. assert (Hs : str_int (60 + a) = str_int (60 + b)).
    { injection H as H. apply append_cancel_l in H. apply (append_cancel_l ": ") in H.
      now apply append_cancel_r in H. }
    apply str_int_inj in Hs. lia.
  - now intros ->.
Qed.

(** X4. [jump] loses nothing of its argument: two distances get the
    same answer only if they are the same distance. *)
Theorem jump_injective (d1 d2 : string) : jump d1 = jump d2 <-> d1 = d2.
Proof.
  split; [|now intros ->].
  unfold jump, fstring; cbn. rewrite !append_empty_r.
  intros [= H]. exact H.
Qed.
End ToolExtras.

(** The witness for X1: the second of the three calls logged in cell 9. *)
Lemma get_weather_kth_call_witness :
  nth_error (Tools.call_each get_weather_def ["Virginia"; "New York"; "Washington DC"]%string
               (Tools.rng_of [14; 5; 6]%N)) 1 =
  Some (inr (VStr "New York: 65F.")).
Proof.
  exact (get_weather_kth_call ["Virginia"; "New York"; "Washington DC"]%string
           (Tools.rng_of [14; 5; 6]%N) 1 "New York"%string eq_refl).
Defined.


(* ===================================================================== *)
(** * Further properties of notebook A *)
(* ===================================================================== *)

Ltac unfold_A :=
  unfold NotebookA.notebook, NotebookA.cell1, NotebookA.cell2, NotebookA.cell3,
    NotebookA.cell4, NotebookA.cell5, NotebookA.cell6, NotebookA.cell7,
    NotebookA.cell8, NotebookA.cell9, NotebookA.cell10, NotebookA.cell11.

Section NotebookAExtras.
Context {W : Type} (env : Call -> W -> (exn + pyval) * W).

(** X6. Whether it completes or not, a run of notebook A makes the
    library calls of [callee_sequence] in order and stops at the first
    that fails: there are never more than three [run] calls, never more
    than one agent constructed, and no [run] before the constructor. *)
Theorem notebookA_any_run (w : W) :
  let cs := callees (trace (exec env NotebookA.notebook w)) in
  (exists n : nat, cs = firstn n NotebookA.callee_sequence) /\
  (count_callee agent_run cs <= 3)%nat /\
  (count_callee ReActAgent cs <= 1)%nat /\
  (count_callee agent_run cs <= 3 * count_callee ReActAgent cs)%nat.
Proof.
  cbv zeta. destruct (notebookA_calls_prefix env w) as [n ->].
  split; [now exists n|].
  do 25 (destruct n as [|n]; [cbn; lia|]). cbn. lia.
Qed.

(** X7. Cell 6 reads [AIAgent.tools[0]] unguarded: when the subscript
    fails on what [AIAgent.tools] answered (IndexError on an empty
    list, TypeError on None), the run of notebook A ends with that
    error, and neither the tool's name nor any [run] is asked for. *)
Theorem notebookA_tools_subscript_fails (w : W) (ts : pyval) (e : exn) :
  answers_of agent_tools (trace (exec env NotebookA.notebook w)) = [inr ts] ->
  subscript_int ts 0 = inl e ->
  outcome (exec env NotebookA.notebook w) = Uncaught e /\
  calls_of tool_name (trace (exec env NotebookA.notebook w)) = [] /\
  calls_of agent_run (trace (exec env NotebookA.notebook w)) = [].
Proof.
  revert ts e. unfold_A. cbn.
  repeat (step env ltac:(intros ts e' H1 H2; first [discriminate H1 | injection H1 as <-; repeat split; congruence])).
  intros ts e' H1 H2. injection H1 as <-. congruence.
Qed.

(** X8. In a completed run of notebook A each function is decorated with
    its own schema: [get_weather] with the class GetWeatherSchema built
    from the field [location], [jump] with the class JumpSchema built
    from the field [distance]; and the agent is constructed with name
    Rob, role Weather Assistant and the two tool objects in that
    order. *)
Theorem notebookA_declarations (w : W) (v : pyval) :
  outcome (exec env NotebookA.notebook w) = Returned v ->
  exists field1 schema1 decorator1 tool1 field2 schema2 decorator2 tool2 agent,
    firstn 8 (skipn 6 (observed (trace (exec env NotebookA.notebook w)))) =
      NotebookA.declaration "GetWeatherSchema" "location" "location to get weather for"
        get_weather_def field1 schema1 decorator1 tool1 ++
      NotebookA.declaration "JumpSchema" "distance" "Distance for agent to jump"
        jump_def field2 schema2 decorator2 tool2 /\
    nth_error (observed (trace (exec env NotebookA.notebook w))) 15 =
      Some (NotebookA.constructor_call (VList [tool1; tool2]), inr agent).
Proof.
  unfold_A. cbn.
  repeat (step env ltac:(discriminate)).
  intros _. do 9 eexists. split; reflexivity.
Qed.

End NotebookAExtras.

(** The witness for X7: the agent reports no tools. *)
Lemma notebookA_tools_subscript_fails_witness :
  outcome (exec scripted NotebookA.notebook NotebookA.no_tools_session) = Uncaught IndexError.
Proof.
  exact (proj1 (notebookA_tools_subscript_fails scripted NotebookA.no_tools_session
                  (VList []) IndexError eq_refl eq_refl)).
Defined.

(** The witness for X8: the recorded session. *)
Lemma notebookA_declarations_witness :
  exists field1 schema1 decorator1 tool1 field2 schema2 decorator2 tool2 agent,
    firstn 8 (skipn 6 (observed (trace (exec AgentModel.env NotebookA.notebook AgentModel.recorded)))) =
      NotebookA.declaration "GetWeatherSchema" "location" "location to get weather for"
        get_weather_def field1 schema1 decorator1 tool1 ++
      NotebookA.declaration "JumpSchema" "distance" "Distance for agent to jump"
        jump_def field2 schema2 decorator2 tool2 /\
    nth_error (observed (trace (exec AgentModel.env NotebookA.notebook AgentModel.recorded))) 15 =
      Some (NotebookA.constructor_call (VList [tool1; tool2]), inr agent).
Proof.
  exact (notebookA_declarations AgentModel.env AgentModel.recorded NotebookA.Out11 eq_refl).
Defined.

(* ===================================================================== *)
(** * Further properties of notebook B *)
(* ===================================================================== *)

Arguments holds : simpl never.
Arguments shape_of : simpl never.
Arguments setup_of : simpl never.

Section Holds.
Context {W : Type} (env : Call -> W -> (exn + pyval) * W).
Variable sel : Callee -> bool.
Variable P : list (Call * (exn + pyval)) -> Outcome -> Prop.

Lemma select_cons (ev : Event W) (t : list (Event W)) :
  select sel (ev :: t) = pick sel (ev_call ev) (ev_result ev) ++ select sel t.
Proof.
  unfold select, observed, pick; cbn.
  now destruct (sel (callee (ev_call ev))).
Qed.

Lemma select_app (t1 t2 : list (Event W)) :
  select sel (t1 ++ t2) = select sel t1 ++ select sel t2.
Proof. unfold select, observed. now rewrite map_app, filter_app. Qed.

Lemma all_print_not_selected (t : list (Event W)) :
  sel print = false -> all_print t = true -> select sel t = [].
Proof.
  intros Hsel. induction t as [|ev t IH]; intros H; [reflexivity|].
  unfold all_print in H; cbn in H. apply andb_prop in H as [Hev Ht].
  rewrite select_cons, (IH Ht). unfold pick.
  destruct (callee (ev_call ev)); try discriminate Hev. now rewrite Hsel.
Qed.

Lemma holds_ret seen v w : P seen (Returned v) -> holds sel P seen (exec env (Ret v) w).
Proof. unfold holds; cbn. now rewrite app_nil_r. Qed.

Lemma holds_raise seen e w : P seen (Uncaught e) -> holds sel P seen (exec env (Raise e) w).
Proof. unfold holds; cbn. now rewrite app_nil_r. Qed.

Lemma holds_do seen c k w :
  (forall e, P (seen ++ pick sel c (inl e)) (Uncaught e)) ->
  (forall v w', holds sel P (seen ++ pick sel c (inr v)) (exec env (k v) w')) ->
  holds sel P seen (exec env (Do c k) w).
Proof.
  intros He Hv. unfold holds in *. cbn [exec].
  destruct (env c w) as [[e|v] w']; cbn [trace outcome after].
  - rewrite select_cons. cbn [ev_call ev_result].
    change (select sel (@nil (Event W))) with (@nil (Call * (exn + pyval))).
    rewrite app_nil_r. apply He.
  - cbn [app]. rewrite select_cons. cbn [ev_call ev_result].
    rewrite app_assoc. apply Hv.
Qed.

Lemma holds_quiet seen p f w :
  sel print = false ->
  (forall w', all_print (trace (exec env p w')) = true) ->
  (forall e, P seen (Uncaught e)) ->
  (forall v w', holds sel P seen (exec env (f v) w')) ->
  holds sel P seen (exec env (bind p f) w).
Proof.
  intros Hsel Hp He Hv. unfold holds in *. rewrite exec_bind.
  pose proof (all_print_not_selected _ Hsel (Hp w)) as Hq.
  destruct (outcome (exec env p w)) as [v|e] eqn:Ho.
  - cbn [trace outcome after]. rewrite select_app, Hq. apply Hv.
  - rewrite Hq, Ho, app_nil_r. apply He.
Qed.

End Holds.

(** One step of a run of notebook B, keeping only the selected events
    seen so far; [tac] closes the goals where the run has stopped. *)
Ltac next :=
  cbn [bind call eval NotebookB.build_documents NotebookB.document_literals
       app pick is_store_op is_setup callee].

Ltac advance env tac :=
  lazymatch goal with
  | |- holds _ _ _ (exec env (Do _ _) _) =>
      apply holds_do; [intros ?e; next; tac | intros ?v ?w; next]
  | |- holds _ _ _ (exec env (call _ _) _) => unfold call
  | |- holds _ _ _ (exec env (Ret _) _) => apply holds_ret; tac
  | |- holds _ _ _ (exec env (Raise _) _) => apply holds_raise; tac
  | |- holds _ _ _ (exec env (bind (for_in _ NotebookB.print_doc) _) _) =>
      apply holds_quiet;
      [reflexivity | intros ?w; apply for_in_prints | intros ?e; tac | intros ?v ?w; next]
  | |- holds _ _ _ (exec env (bind (for_zip _ _ NotebookB.print_result) _) _) =>
      apply holds_quiet;
      [reflexivity | intros ?w; apply for_zip_prints | intros ?e; tac | intros ?v ?w; next]
  | |- context [eval ?r] =>
      destruct r as [?e|?v] eqn:?; next
  end.

Ltac unfold_B :=
  unfold NotebookB.notebook, NotebookB.cell0, NotebookB.cell1, NotebookB.cell2,
    NotebookB.cell3, NotebookB.cell4, NotebookB.cell5, NotebookB.cell6,
    NotebookB.cell7, NotebookB.cell8, NotebookB.cell9, NotebookB.cell10,
    NotebookB.cell11, NotebookB.cell14, NotebookB.cell12, NotebookB.cell13.

Ltac guard_holds :=
  intros _; eexists _, _;
  split; [reflexivity | split; [eexists; split; eassumption | reflexivity]].

Ltac stops_on_subscript :=
  intros _ ?r Hr; cbn in Hr; injection Hr as <-;
  eexists; split; [reflexivity|];
  first [left; eassumption | right; eexists; split; eassumption].

Ltac close_shape :=
  match goal with
  | |- shape_of ?se _ => exists (List.length se)
  end;
  split; [reflexivity|];
  split; [first [intros Hn; exfalso; cbn in Hn; lia
                | intros _ ?r Hr; cbn in Hr; discriminate Hr
                | stops_on_subscript]|];
  split; [first [intros Hn; exfalso; cbn in Hn; lia | guard_holds]|];
  split; [first [intros Hn; exfalso; cbn in Hn; lia | guard_holds]|];
  first [intros v' Hv'; discriminate Hv' | intros; reflexivity].

Ltac close_setup :=
  intros v' Hv';
  first [discriminate Hv'
        | eexists _, _, [_; _; _; _; _; _; _; _; _; _], _; split; reflexivity].

Section NotebookBExtras.
Context {W : Type} (env : Call -> W -> (exn + pyval) * W).

(** The store events of every run of notebook B have the shape
    [shape_of]. *)
Lemma notebookB_shape (w : W) :
  shape_of (store_events (trace (exec env NotebookB.notebook w)))
           (outcome (exec env NotebookB.notebook w)).
Proof.
  change (holds is_store_op shape_of [] (exec env NotebookB.notebook w)).
  unfold_B. next.
  repeat advance env close_shape.
Qed.

(** The setup events of every run of notebook B are as [setup_of]
    says. *)
Lemma notebookB_setup (w : W) :
  setup_of (select is_setup (trace (exec env NotebookB.notebook w)))
           (outcome (exec env NotebookB.notebook w)).
Proof.
  change (holds is_setup setup_of [] (exec env NotebookB.notebook w)).
  unfold_B. next.
  repeat advance env close_setup.
Qed.

End NotebookBExtras.

(** Reading [retrieved[i]['id']] succeeds only on a list whose element
    [i] is a dict with an ['id']. *)
Lemma reads_id_list (retrieved : pyval) (i : nat) (doc_id : pyval) :
  reads_id retrieved i doc_id ->
  exists l d, retrieved = VList l /\ nth_error l i = Some (VDict d) /\
              dict_get d "id" = Some doc_id.
Proof.
  intros [el [H1 H2]]. unfold subscript_int in H1. unfold subscript_str in H2.
  destruct el; try discriminate H2.
  destruct (dict_get d "id") as [x|] eqn:Hd; [|discriminate H2]. injection H2 as ->.
  destruct retrieved; try discriminate H1.
  - destruct (nth_error (characters s) i); discriminate H1.
  - destruct (nth_error l i) as [x|] eqn:Hn; [|discriminate H1].
    injection H1 as ->. now exists l, d.
Qed.

(** A callee that occurs among the first [n] of the sequence but not
    among the first [k] occurs after position [k]. *)
Lemma prefix_reaches (c : Callee) (n k : nat) :
  In c (firstn n NotebookB.store_callee_sequence) ->
  count_callee c (firstn k NotebookB.store_callee_sequence) = 0%nat ->
  (k < n)%nat.
Proof.
  intros Hin Hk. destruct (Nat.lt_ge_cases k n) as [|Hle]; [assumption|exfalso].
  assert (Hsub : In c (firstn k NotebookB.store_callee_sequence)).
  { rewrite <- (firstn_skipn n (firstn k _)). apply in_or_app. left.
    rewrite firstn_firstn. now replace (Nat.min n k) with n by lia. }
  clear Hin. revert Hsub Hk.
  generalize (firstn k NotebookB.store_callee_sequence). intros l.
  induction l as [|x l IH]; cbn; [tauto|]. intros [->|Hin] H.
  - destruct c; cbn in H; discriminate H.
  - apply IH; [assumption|]. destruct (Callee_eqb c x); cbn in H; [discriminate H | exact H].
Qed.

Section NotebookBGuards.
Context {W : Type} (env : Call -> W -> (exn + pyval) * W).

(** X10. Whether it completes or not, a run of notebook B calls the
    store in the order of [store_callee_sequence] and stops at the
    first failure: it never adds, updates, deletes or resets twice, and
    a run that returns has made all sixteen calls. *)
Theorem notebookB_store_prefix (w : W) :
  let r := exec env NotebookB.notebook w in
  let cs := callees_of (store_events (trace r)) in
  (exists n : nat, cs = firstn n NotebookB.store_callee_sequence) /\
  (count_callee store_add_documents cs <= 1)%nat /\
  (count_callee store_update cs <= 1)%nat /\
  (count_callee store_delete cs <= 1)%nat /\
  (count_callee store_reset cs <= 1)%nat /\
  (forall v, outcome r = Returned v -> cs = NotebookB.store_callee_sequence).
Proof.
  cbv zeta. destruct (notebookB_shape env w) as (n & Hn & _ & _ & _ & Hv).
  rewrite Hn. split; [now exists n|].
  split; [|split; [|split; [|split]]].
  5: { intros v Ho. now rewrite (Hv v Ho). }
  all: do 17 (destruct n as [|n]; [cbn; lia|]); cbn; lia.
Qed.

(** X11. Whenever notebook B calls [store.update], complete run or not,
    the second [store.get()] had answered a list whose first element is
    a dict with an ['id'], and that id, alone, is the [ids] argument of
    the update. *)
Theorem notebookB_update_guard (w : W) :
  let se := store_events (trace (exec env NotebookB.notebook w)) in
  In store_update (callees_of se) ->
  exists l d doc_id,
    nth_error (map snd se) 4 = Some (inr (VList l)) /\
    nth_error l 0 = Some (VDict d) /\
    dict_get d "id" = Some doc_id /\
    nth_error (ids_of se) 5 = Some (Some (VList [doc_id])).
Proof.
  cbv zeta. destruct (notebookB_shape env w) as (n & Hn & _ & G1 & _ & _).
  rewrite Hn. intros Hin.
  destruct G1 as (retrieved & doc_id & Ha & Hr & Hi);
    [apply (prefix_reaches store_update n 5 Hin); reflexivity|].
  destruct (reads_id_list _ _ _ Hr) as (l & d & -> & Hl & Hd).
  now exists l, d, doc_id.
Qed.

(** X12. Whenever notebook B calls [store.delete], complete run or not,
    the list answered by the second [store.get()] had at least three
    elements, the third of them a dict with an ['id'], and that id,
    alone, is the [ids] argument of the delete: on a store of fewer
    than three documents nothing is deleted. *)
Theorem notebookB_delete_guard (w : W) :
  let se := store_events (trace (exec env NotebookB.notebook w)) in
  In store_delete (callees_of se) ->
  exists l d doc_id,
    nth_error (map snd se) 4 = Some (inr (VList l)) /\
    (3 <= List.length l)%nat /\
    nth_error l 2 = Some (VDict d) /\
    dict_get d "id" = Some doc_id /\
    nth_error (ids_of se) 7 = Some (Some (VList [doc_id])).
Proof.
  cbv zeta. destruct (notebookB_shape env w) as (n & Hn & _ & _ & G2 & _).
  rewrite Hn. intros Hin.
  destruct G2 as (retrieved & doc_id & Ha & Hr & Hi);
    [apply (prefix_reaches store_delete n 7 Hin); reflexivity|].
  destruct (reads_id_list _ _ _ Hr) as (l & d & -> & Hl & Hd).
  exists l, d, doc_id. repeat split; try assumption.
  assert (2 < List.length l)%nat; [|lia].
  apply nth_error_Some. now rewrite Hl.
Qed.

(** X13. Notebook B runs to its end only on a store of at least three
    documents: in a completed run the second [store.get()] answered a
    list of three elements or more whose elements 0 and 2 are dicts
    with an ['id']. *)
Theorem notebookB_needs_three_documents (w : W) (v : pyval) :
  let se := store_events (trace (exec env NotebookB.notebook w)) in
  outcome (exec env NotebookB.notebook w) = Returned v ->
  exists l d0 d2 id0 id2,
    nth_error (map snd se) 4 = Some (inr (VList l)) /\
    (3 <= List.length l)%nat /\
    nth_error l 0 = Some (VDict d0) /\ dict_get d0 "id" = Some id0 /\
    nth_error l 2 = Some (VDict d2) /\ dict_get d2 "id" = Some id2.
Proof.
  cbv zeta. intros Hv.
  destruct (notebookB_shape env w) as (n & Hn & _ & G1 & G2 & Hn16).
  rewrite (Hn16 v Hv) in *.
  destruct G1 as (r1 & id0 & Ha1 & Hr1 & _); [lia|].
  destruct G2 as (r2 & id2 & Ha2 & Hr2 & _); [lia|].
  rewrite Ha1 in Ha2. injection Ha2 as <-.
  destruct (reads_id_list _ _ _ Hr1) as (l & d0 & -> & Hl0 & Hd0).
  destruct (reads_id_list _ _ _ Hr2) as (l' & d2 & [= <-] & Hl2 & Hd2).
  exists l, d0, d2, id0, id2. repeat split; try assumption.
  assert (2 < List.length l)%nat; [|lia].
  apply nth_error_Some. now rewrite Hl2.
Qed.

(** X14. Cell 7 reads [retrieved_docs[0]] unguarded: when that subscript
    fails on what the second [store.get()] answered (IndexError on an
    empty store), the run of notebook B ends with that error right
    there; the store has been asked five things and is never asked to
    update, delete, search or reset. *)
Theorem notebookB_first_subscript_fails (w : W) (retrieved : pyval) (e : exn) :
  let r := exec env NotebookB.notebook w in
  let se := store_events (trace r) in
  nth_error (map snd se) 4 = Some (inr retrieved) ->
  subscript_int retrieved 0 = inl e ->
  outcome r = Uncaught e /\
  callees_of se = firstn 5 NotebookB.store_callee_sequence.
Proof.
  cbv zeta. intros Ha He.
  destruct (notebookB_shape env w) as (n & Hn & G0 & G1 & _ & _).
  assert (Hlen : (4 < n)%nat).
  { assert (H4 : (4 < List.length (callees_of (store_events (trace (exec env NotebookB.notebook w)))))%nat).
    { unfold callees_of. rewrite length_map, <- (length_map snd).
      apply nth_error_Some. now rewrite Ha. }
    rewrite Hn, length_firstn in H4. lia. }
  destruct (Nat.eq_dec n 5) as [->|Hne].
  - split; [|exact Hn].
    destruct (G0 eq_refl retrieved Ha) as (e' & Ho & [He'|(first & Hf & _)]); congruence.
  - destruct G1 as (r1 & id0 & Ha1 & (el & Hel & _) & _); [lia|].
    rewrite Ha in Ha1. injection Ha1 as <-. congruence.
Qed.

(** X9. In a completed run of notebook B the store is built on the
    embedder object that [SentenceTransformerEmbedder] returned, one
    [Document] is constructed per literal of cell 4, in the order of
    the source and with its text, topic and location, and
    [add_documents] receives the list of the ten objects that came
    back, in that order. *)
Theorem notebookB_documents_added (w : W) (v : pyval) :
  outcome (exec env NotebookB.notebook w) = Returned v ->
  exists embedding_function store ds added,
    List.length ds = 10%nat /\
    select is_setup (trace (exec env NotebookB.notebook w)) =
      [(NotebookB.embedder_call, inr embedding_function);
       (NotebookB.store_constructor_call embedding_function, inr store)]
      ++ combine (map NotebookB.document_call NotebookB.document_literals) (map inr ds)
      ++ [(mk_call store_add_documents [Pos store; Kw "documents" (VList ds)],
           inr added)].
Proof.
  intros Hv. exact (notebookB_setup env w v Hv).
Qed.

End NotebookBGuards.

Section Loops.
Context {W : Type} (env : Call -> W -> (exn + pyval) * W).

Lemma calls_after (t : list (Event W)) (r : Run W) :
  calls (trace (after t r)) = calls t ++ calls (trace r).
Proof. unfold calls; cbn. apply map_app. Qed.

(** One turn of the loop of cell 6 that returns has read the three keys
    of the document and printed one line made of them. *)
Lemma print_doc_line (doc : pyval) (w : W) (v : pyval) :
  outcome (exec env (NotebookB.print_doc doc) w) = Returned v ->
  exists id text metadata,
    subscript_str doc "id" = inr id /\
    subscript_str doc "document" = inr text /\
    subscript_str doc "metadata" = inr metadata /\
    calls (trace (exec env (NotebookB.print_doc doc) w)) =
      [NotebookB.doc_line id text metadata].
Proof.
  unfold NotebookB.print_doc.
  destruct (subscript_str doc "id") as [e|id]; [discriminate|].
  destruct (subscript_str doc "document") as [e|text]; [discriminate|].
  destruct (subscript_str doc "metadata") as [e|metadata]; [discriminate|].
  cbn. destruct (env _ w) as [[e|x] w']; cbn; [discriminate|].
  intros _. now exists id, text, metadata.
Qed.

(** X15. The loop of cell 6, when it returns, has printed one line per
    retrieved document, in order, each made of the ['id'],
    ['document'] and ['metadata'] of that document; so it returns only
    if every document has the three keys. *)
Theorem retrieved_loop_lines (docs : list pyval) (w : W) (v : pyval) :
  outcome (exec env (for_in (VList docs) NotebookB.print_doc) w) = Returned v ->
  Forall2 (fun doc line =>
             exists id text metadata,
               subscript_str doc "id" = inr id /\
               subscript_str doc "document" = inr text /\
               subscript_str doc "metadata" = inr metadata /\
               line = NotebookB.doc_line id text metadata)
          docs
          (calls (trace (exec env (for_in (VList docs) NotebookB.print_doc) w))).
Proof.
  unfold for_in; cbn [iterate]. revert w.
  induction docs as [|doc docs IH]; intros w; cbn [for_each].
  - intros _. constructor.
  - rewrite exec_bind.
    destruct (outcome (exec env (NotebookB.print_doc doc) w)) as [x|e] eqn:Hd.
    + cbn [outcome]. intros Hrest. rewrite calls_after.
      destruct (print_doc_line doc w x Hd) as (id & text & md & H1 & H2 & H3 & ->).
      cbn [app]. constructor; [now exists id, text, md | now apply IH].
    + rewrite Hd. discriminate.
Qed.

Lemma print_result_lines (doc metadata : pyval) (w : W) (v : pyval) :
  outcome (exec env (NotebookB.print_result doc metadata) w) = Returned v ->
  calls (trace (exec env (NotebookB.print_result doc metadata) w)) =
    NotebookB.result_lines (doc, metadata).
Proof.
  unfold NotebookB.print_result. cbn.
  destruct (env _ w) as [[e|x] w']; cbn; [discriminate|].
  destruct (env _ w') as [[e|y] w'']; cbn; [discriminate|]. reflexivity.
Qed.

(** X16. The loop of cell 9 over two lists, when it returns, has printed
    a Text line and a Metadata line for each pair that [zip] forms, in
    order: as many pairs as the shorter list has elements, the rest of
    the longer one being left out. *)
Theorem zip_loop_lines (la lb : list pyval) (w : W) (v : pyval) :
  outcome (exec env (for_zip (VList la) (VList lb) NotebookB.print_result) w) = Returned v ->
  let printed :=
    calls (trace (exec env (for_zip (VList la) (VList lb) NotebookB.print_result) w)) in
  printed = flat_map NotebookB.result_lines (combine la lb) /\
  List.length printed = (2 * Nat.min (List.length la) (List.length lb))%nat.
Proof.
  unfold for_zip. cbn [iterate]. cbv zeta.
  intros Hv.
  assert (H : calls (trace (exec env (for_pairs (combine la lb) NotebookB.print_result) w)) =
              flat_map NotebookB.result_lines (combine la lb)).
  { revert w Hv. generalize (combine la lb). intros l.
    induction l as [|[x y] l IH]; intros w; cbn [for_pairs flat_map]; [reflexivity|].
    rewrite exec_bind.
    destruct (outcome (exec env (NotebookB.print_result x y) w)) as [r|e] eqn:Hx.
    - cbn [outcome]. intros Hrest. rewrite calls_after, (print_result_lines x y w r Hx).
      now rewrite (IH _ Hrest).
    - rewrite Hx. discriminate. }
  split; [exact H|]. rewrite H.
  rewrite <- length_combine.
  generalize (combine la lb). intros l. induction l as [|p l IH]; cbn; [reflexivity|].
  rewrite IH. lia.
Qed.

End Loops.

(** The witness for X11: the recorded session. *)
Lemma notebookB_update_guard_witness :
  exists l d doc_id,
    nth_error (map snd (store_events (trace (exec scripted NotebookB.notebook NotebookB.recorded)))) 4 =
      Some (inr (VList l)) /\
    nth_error l 0 = Some (VDict d) /\
    dict_get d "id" = Some doc_id /\
    nth_error (ids_of (store_events (trace (exec scripted NotebookB.notebook NotebookB.recorded)))) 5 =
      Some (Some (VList [doc_id])).
Proof.
  apply (notebookB_update_guard scripted NotebookB.recorded).
  vm_compute. do 5 right. left. reflexivity.
Defined.

(** The witness for X12: the recorded session. *)
Lemma notebookB_delete_guard_witness :
  exists l d doc_id,
    nth_error (map snd (store_events (trace (exec scripted NotebookB.notebook NotebookB.recorded)))) 4 =
      Some (inr (VList l)) /\
    (3 <= List.length l)%nat /\
    nth_error l 2 = Some (VDict d) /\
    dict_get d "id" = Some doc_id /\
    nth_error (ids_of (store_events (trace (exec scripted NotebookB.notebook NotebookB.recorded)))) 7 =
      Some (Some (VList [doc_id])).
Proof.
  apply (notebookB_delete_guard scripted NotebookB.recorded).
  vm_compute. do 7 right. left. reflexivity.
Defined.

(** The witness for X13: the recorded session. *)
Lemma notebookB_needs_three_documents_witness :
  exists l d0 d2 id0 id2,
    nth_error (map snd (store_events (trace (exec scripted NotebookB.notebook NotebookB.recorded)))) 4 =
      Some (inr (VList l)) /\
    (3 <= List.length l)%nat /\
    nth_error l 0 = Some (VDict d0) /\ dict_get d0 "id" = Some id0 /\
    nth_error l 2 = Some (VDict d2) /\ dict_get d2 "id" = Some id2.
Proof.
  exact (notebookB_needs_three_documents scripted NotebookB.recorded (VList []) eq_refl).
Defined.

(** The witness for X14: the store is empty when cell 7 reads it. *)
Lemma notebookB_first_subscript_fails_witness :
  outcome (exec scripted NotebookB.notebook NotebookB.empty_store_session) = Uncaught IndexError.
Proof.
  exact (proj1 (notebookB_first_subscript_fails scripted NotebookB.empty_store_session
                  (VList []) IndexError eq_refl eq_refl)).
Defined.

(** The witness for X9: the recorded session. *)
Lemma notebookB_documents_added_witness :
  exists embedding_function store ds added,
    List.length ds = 10%nat /\
    select is_setup (trace (exec scripted NotebookB.notebook NotebookB.recorded)) =
      [(NotebookB.embedder_call, inr embedding_function);
       (NotebookB.store_constructor_call embedding_function, inr store)]
      ++ combine (map NotebookB.document_call NotebookB.document_literals) (map inr ds)
      ++ [(mk_call store_add_documents [Pos store; Kw "documents" (VList ds)],
           inr added)].
Proof.
  exact (notebookB_documents_added scripted NotebookB.recorded (VList []) eq_refl).
Defined.

(** The witness for X15: the ten documents of the recorded session. *)
Lemma retrieved_loop_lines_witness :
  List.length (calls (trace (exec scripted
     (for_in (NotebookB.stored_documents NotebookB.recorded_ids) NotebookB.print_doc) []))) = 10%nat.
Proof.
  pose proof (retrieved_loop_lines scripted
                (map (fun il => NotebookB.stored (fst il) (fst (snd il)) (fst (snd (snd il)))
                                  (snd (snd (snd il))))
                     (combine NotebookB.recorded_ids NotebookB.document_literals))
                [] VNone eq_refl) as H.
  apply Forall2_length in H. symmetry. exact H.
Defined.

(** The witness for X16: three elements zipped with two. *)
Lemma zip_loop_lines_witness :
  List.length (calls (trace (exec scripted
     (for_zip (VList [VInt 1; VInt 2; VInt 3]) (VList [VInt 4; VInt 5]) NotebookB.print_result) []))) =
  4%nat.
Proof.
  exact (proj2 (zip_loop_lines scripted [VInt 1; VInt 2; VInt 3] [VInt 4; VInt 5]
                  [] VNone eq_refl)).
Defined.

(** The witness for X10: the recorded session returns, having made the
    sixteen calls. *)
Lemma notebookB_store_prefix_witness :
  callees_of (store_events (trace (exec scripted NotebookB.notebook NotebookB.recorded))) =
  NotebookB.store_callee_sequence.
Proof.
  exact (proj2 (proj2 (proj2 (proj2 (proj2
    (notebookB_store_prefix scripted NotebookB.recorded))))) (VList []) eq_refl).
Defined.

(* ===================================================================== *)
(** * Strings by character *)
(* ===================================================================== *)

(** Splitting a [str] into characters loses nothing: joined again, the
    characters are the string. *)
Lemma characters_join (s : string) : fold_right String.append EmptyString (characters s) = s.
Proof.
  unfold characters.
  assert (H : (fst (split_characters s) ++
               fold_right String.append EmptyString (snd (split_characters s)))%string = s).
  { induction s as [|c s IH]; cbn; [reflexivity|].
    destruct (split_characters s) as [k cs]. cbn in IH.
    destruct (is_continuation c); cbn; now rewrite IH. }
  destruct (split_characters s) as [[|k0 k] cs]; cbn in *; exact H.
Qed.

(** A string of bytes below 128 has one character per byte. *)
Lemma characters_ascii (s : string) :
  forallb (fun c => negb (is_continuation c)) (list_ascii_of_string s) = true ->
  List.length (characters s) = String.length s.
Proof.
  unfold characters.
  assert (H : forallb (fun c => negb (is_continuation c)) (list_ascii_of_string s) = true ->
              fst (split_characters s) = EmptyString /\
              List.length (snd (split_characters s)) = String.length s).
  { induction s as [|c s IH]; cbn; [now split|].
    intros Hc. apply andb_prop in Hc as [Hc Hs]. destruct (IH Hs) as [Hk Hl].
    destruct (split_characters s) as [k cs]. cbn in *.
    destruct (is_continuation c); [discriminate|]. cbn. now rewrite Hl. }
  intros Hc. destruct (H Hc) as [Hk Hl].
  destruct (split_characters s) as [k cs]. cbn in *. now subst k.
Qed.

(* ===================================================================== *)
(** * The complete transcripts *)
(* ===================================================================== *)

Arguments completed_A : simpl never.
Arguments completed_B : simpl never.

Section Everything.
Context {W : Type} (env : Call -> W -> (exn + pyval) * W).

Lemma select_everything (t : list (Event W)) : select everything t = observed t.
Proof.
  unfold select. induction (observed t) as [|x l IH]; cbn; [reflexivity | now rewrite IH].
Qed.

Lemma calls_observed (t : list (Event W)) : calls t = map fst (observed t).
Proof. unfold calls, observed. now rewrite map_map. Qed.

(** Running [p] and then [f], with the events of [p] taken as seen. *)
Lemma holds_bind (sel : Callee -> bool) (P : list (Call * (exn + pyval)) -> Outcome -> Prop)
    seen p f w :
  (forall v, outcome (exec env p w) = Returned v ->
             holds sel P (seen ++ select sel (trace (exec env p w)))
                   (exec env (f v) (final (exec env p w)))) ->
  (forall e, outcome (exec env p w) = Uncaught e ->
             P (seen ++ select sel (trace (exec env p w))) (Uncaught e)) ->
  holds sel P seen (exec env (bind p f) w).
Proof.
  intros Hv He. unfold holds in *. rewrite exec_bind.
  destruct (outcome (exec env p w)) as [v|e] eqn:Ho.
  - cbn [trace outcome after]. rewrite select_app, app_assoc. now apply Hv.
  - rewrite Ho. now apply He.
Qed.

(** A loop over the pairs that returns has printed the two lines of
    each pair, in order. *)
Lemma for_pairs_lines (l : list (pyval * pyval)) (w : W) (v : pyval) :
  outcome (exec env (for_pairs l NotebookB.print_result) w) = Returned v ->
  calls (trace (exec env (for_pairs l NotebookB.print_result) w)) =
    flat_map NotebookB.result_lines l.
Proof.
  revert w. induction l as [|[x y] l IH]; intros w; cbn [for_pairs flat_map]; [reflexivity|].
  rewrite exec_bind.
  destruct (outcome (exec env (NotebookB.print_result x y) w)) as [r|e] eqn:Hx.
  - cbn [outcome]. intros Hrest. rewrite calls_after, (print_result_lines env x y w r Hx).
    now rewrite (IH _ Hrest).
  - rewrite Hx. discriminate.
Qed.

(** The loop of cell 9 returns only over two things that can be walked,
    and has then printed the lines of the pairs [zip] forms. *)
Lemma for_zip_returned (a b : pyval) (w : W) (v : pyval) :
  outcome (exec env (for_zip a b NotebookB.print_result) w) = Returned v ->
  exists la lb,
    iterate a = inr la /\ iterate b = inr lb /\
    calls (trace (exec env (for_zip a b NotebookB.print_result) w)) =
      flat_map NotebookB.result_lines (combine la lb).
Proof.
  unfold for_zip.
  destruct (iterate a) as [e|la]; [discriminate|].
  destruct (iterate b) as [e|lb]; [discriminate|].
  intros Hv. exists la, lb. repeat split. exact (for_pairs_lines _ w v Hv).
Qed.

(** The loop of cell 6 returns only over something that can be walked,
    and has then printed the line of each element. *)
Lemma for_in_returned (shown : pyval) (w : W) (v : pyval) :
  outcome (exec env (for_in shown NotebookB.print_doc) w) = Returned v ->
  exists docs,
    iterate shown = inr docs /\
    Forall2 line_of docs (calls (trace (exec env (for_in shown NotebookB.print_doc) w))).
Proof.
  unfold for_in. destruct (iterate shown) as [e|docs]; [discriminate|].
  intros Hv. exists docs. split; [reflexivity|].
  revert w Hv. induction docs as [|doc docs IH]; intros w; cbn [for_each].
  - intros _. constructor.
  - rewrite exec_bind.
    destruct (outcome (exec env (NotebookB.print_doc doc) w)) as [x|e] eqn:Hd.
    + cbn [outcome]. intros Hrest. rewrite calls_after.
      destruct (print_doc_line env doc w x Hd) as (id & text & md & H1 & H2 & H3 & ->).
      cbn [app]. constructor; [now exists id, text, md | now apply IH].
    + rewrite Hd. discriminate.
Qed.

End Everything.

(** One step of a run of either notebook with every event kept; the
    events of a loop that returned are kept as one segment. *)
Ltac keep :=
  cbn [bind call eval NotebookB.build_documents NotebookB.document_literals
       app pick everything is_shell callee].

Ltac stopped := intros ?v Hstop; discriminate Hstop.

Ltac record env finish :=
  lazymatch goal with
  | |- holds _ _ _ (exec env (Do _ _) _) =>
      apply holds_do; [intros ?e; stopped | intros ?v ?w; keep]
  | |- holds _ _ _ (exec env (call _ _) _) => unfold call
  | |- holds _ _ _ (exec env (Ret _) _) => apply holds_ret; finish
  | |- holds _ _ _ (exec env (Raise _) _) => apply holds_raise; stopped
  | |- holds _ _ _ (exec env (bind (for_in ?a NotebookB.print_doc) _) ?w) =>
      apply holds_bind;
      [ let v := fresh "v" in
        let Hret := fresh "Hret" in
        intros v Hret;
        destruct (for_in_returned env a w v Hret) as (?docs & ?Hwalk & ?Hlines);
        rewrite select_everything;
        rewrite calls_observed in *;
        clear Hret;
        generalize dependent (observed (trace (exec env (for_in a NotebookB.print_doc) w)));
        generalize (final (exec env (for_in a NotebookB.print_doc) w));
        intros ?w ?lines ?Hlines; keep
      | intros ?e _; stopped ]
  | |- holds _ _ _ (exec env (bind (for_zip ?a ?b NotebookB.print_result) _) ?w) =>
      apply holds_bind;
      [ let v := fresh "v" in
        let Hret := fresh "Hret" in
        intros v Hret;
        destruct (for_zip_returned env a b w v Hret) as (?la & ?lb & ?Hwalk & ?Hwalk & ?Hlines);
        rewrite select_everything;
        rewrite calls_observed in *;
        clear Hret;
        generalize dependent
          (observed (trace (exec env (for_zip a b NotebookB.print_result) w)));
        generalize (final (exec env (for_zip a b NotebookB.print_result) w));
        intros ?w ?lines ?Hlines; keep
      | intros ?e _; stopped ]
  | |- context [eval ?r] =>
      destruct r as [?e|?v] eqn:?; keep
  end.

Section Transcribed.
Context {W : Type} (env : Call -> W -> (exn + pyval) * W).

Lemma notebookA_transcribed (w : W) :
  completed_A (observed (trace (exec env NotebookA.notebook w)))
              (outcome (exec env NotebookA.notebook w)).
Proof.
  rewrite <- select_everything.
  change (holds everything completed_A [] (exec env NotebookA.notebook w)).
  unfold_A. keep.
  repeat record env ltac:(idtac).
  intros v' [= <-]. do 24 eexists. split; [reflexivity | eassumption].
Qed.

Lemma notebookB_transcribed (w : W) :
  completed_B (observed (trace (exec env NotebookB.notebook w)))
              (outcome (exec env NotebookB.notebook w)).
Proof.
  rewrite <- select_everything.
  change (holds everything completed_B [] (exec env NotebookB.notebook w)).
  unfold_B. keep.
  repeat record env ltac:(idtac).
  intros v' [= <-]. rewrite <- !app_assoc. cbn [app].
  eexists _, _, _, _, _, _, _, _, [_; _; _; _; _; _; _; _; _; _].
  do 23 eexists.
  split; [reflexivity|]. split; [reflexivity|].
  split; [eexists; split; eassumption|].
  split; [eexists; split; eassumption|].
  split; [eexists; split; eassumption|].
  do 4 eexists. repeat split; eassumption.
Qed.

Lemma notebookA_no_shell (w : W) :
  select is_shell (trace (exec env NotebookA.notebook w)) = [].
Proof.
  change (holds is_shell (fun se _ => se = []) [] (exec env NotebookA.notebook w)).
  unfold_A. keep.
  repeat (lazymatch goal with
          | |- holds _ _ _ (exec env (Do _ _) _) =>
              apply holds_do; [intros ?e; reflexivity | intros ?v ?w; keep]
          | |- holds _ _ _ (exec env (call _ _) _) => unfold call
          | |- holds _ _ _ (exec env (Ret _) _) => apply holds_ret; reflexivity
          | |- holds _ _ _ (exec env (Raise _) _) => apply holds_raise; reflexivity
          | |- context [eval ?r] => destruct r as [?e|?v] eqn:?; keep
          end).
Qed.

Lemma notebookB_one_shell (w : W) :
  map fst (select is_shell (trace (exec env NotebookB.notebook w))) = [NotebookB.pip_install].
Proof.
  change (holds is_shell (fun se _ => map fst se = [NotebookB.pip_install]) []
            (exec env NotebookB.notebook w)).
  unfold_B. keep.
  repeat advance env ltac:(reflexivity).
Qed.

End Transcribed.


